(** * InputHandler: the colorpicker's text field synchronizer

    A shallow embedding of [src/js/InputHandler.js].  The class keeps a
    reference to an optional jQuery object ([this.input], a jQuery object or
    [false]) and to the owning widget ([this.colorpicker]).  Its methods read
    and write the field, read the widget's options and colour state,
    overwrite the widget's [lastEvent] record, dispatch a synthetic change
    event and call the widget's [setValue].

    Methods are computations in a state-and-exception monad over a [World]
    holding the two references and the ordered trace of outward actions
    (property writes, dispatched events, calls of the widget's [setValue]).
    A method call on [this.input] while it is [false] raises a [TypeError],
    as it does in JavaScript; the guards of the source are what keeps the
    methods from reaching it. *)

From Stdlib Require Import String Ascii List ZArith Bool Arith.
Import ListNotations.
Open Scope string_scope.
Open Scope list_scope.

(** ** JavaScript values *)

(** The values that flow through the handler.  Objects are references;
    instances of [Color] and of [String] are told apart because the source
    tests [instanceof] on them.  Numbers are the integers jQuery's [data]
    conversion yields. *)
Inductive value : Type :=
| VUndefined
| VNull
| VBool (b : bool)
| VNum (n : Z)
| VStr (s : string)
| VColor (ref : nat)
| VStringObj (ref : nat)
| VObject (ref : nat).

(** ToBoolean: what [if (v)], [v ? a : b] and [!v] look at. *)
Definition truthy (v : value) : bool :=
  match v with
  | VUndefined | VNull => false
  | VBool b => b
  | VNum n => negb (n =? 0)%Z
  | VStr s => negb (s =? "")
  | VColor _ | VStringObj _ | VObject _ => true
  end.

(** [a === b]: same type and same primitive, or the same reference. *)
Definition strict_eq (a b : value) : bool :=
  match a, b with
  | VUndefined, VUndefined => true
  | VNull, VNull => true
  | VBool x, VBool y => Bool.eqb x y
  | VNum x, VNum y => (x =? y)%Z
  | VStr x, VStr y => (x =? y)
  | VColor x, VColor y => (x =? y)%nat
  | VStringObj x, VStringObj y => (x =? y)%nat
  | VObject x, VObject y => (x =? y)%nat
  | _, _ => false
  end.

(** [v ? v : ''], the normalisation both sides of [setValue]'s comparison
    go through. *)
Definition or_empty (v : value) : value :=
  if truthy v then v else VStr "".

(** [typeof v === 'string' || v instanceof String] *)
Definition is_string (v : value) : bool :=
  match v with
  | VStr _ | VStringObj _ => true
  | _ => false
  end.

(** ** [String.prototype.replace] with the pattern [/^#/g]

    The global flag makes [replace] try the pattern again from the index
    after each match until the subject is exhausted.  Without the [m] flag
    the assertion [^] holds at index 0 only. *)
Definition matches_caret_hash (index : nat) (rest : string) : bool :=
  (index =? 0)%nat &&
  match rest with
  | String c _ => Ascii.eqb c "#"
  | EmptyString => false
  end.

Fixpoint replace_caret_hash_from (index : nat) (rest : string) : string :=
  match rest with
  | EmptyString => EmptyString
  | String c rest' =>
      if matches_caret_hash index rest
      then replace_caret_hash_from (S index) rest'
      else String c (replace_caret_hash_from (S index) rest')
  end.

Definition replace_caret_hash_g (s : string) : string :=
  replace_caret_hash_from 0 s.

(** ** The DOM layer: a jQuery object *)

(** The two bound methods the handler subscribes, [$.proxy(this.onkeyup,
    this)] and [$.proxy(this.onchange, this)]. *)
Inductive Handler : Type := Honkeyup | Honchange.

Record Subscription : Type := {
  sub_type : string;
  sub_namespace : string;
  sub_handler : Handler
}.

(** A jQuery object as the handler sees it through [length], [prop], [val],
    [data], [attr], [on] and [off]. *)
Record JQuery : Type := {
  jq_length : nat;
  prop_value : value;
  prop_disabled : value;
  data_color : value;
  attr_data_color : value;
  subscriptions : list Subscription
}.

Definition set_prop_value (v : value) (jq : JQuery) : JQuery :=
  {| jq_length := jq_length jq; prop_value := v;
     prop_disabled := prop_disabled jq; data_color := data_color jq;
     attr_data_color := attr_data_color jq;
     subscriptions := subscriptions jq |}.

Definition set_prop_disabled (v : value) (jq : JQuery) : JQuery :=
  {| jq_length := jq_length jq; prop_value := prop_value jq;
     prop_disabled := v; data_color := data_color jq;
     attr_data_color := attr_data_color jq;
     subscriptions := subscriptions jq |}.

Definition set_subscriptions (l : list Subscription) (jq : JQuery) : JQuery :=
  {| jq_length := jq_length jq; prop_value := prop_value jq;
     prop_disabled := prop_disabled jq; data_color := data_color jq;
     attr_data_color := attr_data_color jq;
     subscriptions := l |}.

(** [jq.prop(name)] for the two properties the handler uses. *)
Definition jq_prop (name : string) (jq : JQuery) : value :=
  if name =? "value" then prop_value jq
  else if name =? "disabled" then prop_disabled jq
  else VUndefined.

(** [jq.prop(name, v)]: the property holds what it is given.  (An input
    element makes a string of whatever is written into its value, and a
    single-line one drops the line breaks of a string.) *)
Definition jq_prop_set (name : string) (v : value) (jq : JQuery) : JQuery :=
  if name =? "value" then set_prop_value v jq
  else if name =? "disabled" then set_prop_disabled v jq
  else jq.

(** [jq.val()]: the element's value, with [null] and [undefined] read as
    the empty string.  (The value of an input or textarea holds no carriage
    return, so the filter [val()] applies to strings is the identity.) *)
Definition jq_val (jq : JQuery) : value :=
  match prop_value jq with
  | VUndefined | VNull => VStr ""
  | v => v
  end.

(** The namespaces of an event name such as ['change.colorpicker.foo']:
    what follows the type, cut at the dots. *)
Fixpoint split_namespaces (acc rest : string) : list string :=
  match rest with
  | EmptyString => [acc]
  | String c rest' =>
      if Ascii.eqb c "."
      then acc :: split_namespaces EmptyString rest'
      else split_namespaces (acc ++ String c EmptyString)%string rest'
  end.

Definition carries_namespace (ns : string) (s : Subscription) : bool :=
  existsb (String.eqb ns) (split_namespaces EmptyString (sub_namespace s)).

(** [jq.off('.ns')]: drop every subscription that carries the namespace,
    alone or among others. *)
Definition jq_off (ns : string) (jq : JQuery) : JQuery :=
  set_subscriptions
    (filter (fun s => negb (carries_namespace ns s)) (subscriptions jq)) jq.

(** [jq.on({'type.ns': h})] *)
Definition jq_on (type ns : string) (h : Handler) (jq : JQuery) : JQuery :=
  set_subscriptions
    (subscriptions jq ++
     [{| sub_type := type; sub_namespace := ns; sub_handler := h |}]) jq.

(** ** The owning widget *)

Record Options : Type := {
  opt_input : value;
  useHashPrefix : value;
  autoInputFallback : value
}.

(** [colorpicker.lastEvent] *)
Record LastEvent : Type := {
  alias : value;
  e : value
}.

(** [colorpicker.element] with the two queries the constructor makes on it:
    [is('input')] and [find(selector)]. *)
Record Element : Type := {
  el_jq : JQuery;
  el_is_input : bool;
  el_find : value -> JQuery
}.

(** The widget state the handler reads.  [safeColorString] and
    [invalidColor] are what [getSafeColorString()] and [isInvalidColor()]
    return in this state. *)
Record Colorpicker : Type := {
  element : Element;
  options : Options;
  format : value;
  color : value;
  lastEvent : LastEvent;
  safeColorString : value;
  invalidColor : bool
}.

Definition set_lastEvent (le : LastEvent) (cp : Colorpicker) : Colorpicker :=
  {| element := element cp; options := options cp; format := format cp;
     color := color cp; lastEvent := le;
     safeColorString := safeColorString cp;
     invalidColor := invalidColor cp |}.

(** ** Outward actions *)

(** The payload of the event [setValue] dispatches; its [colorpicker] key
    refers back to the one widget of the world. *)
Record Event : Type := {
  ev_type : string;
  ev_color : value;
  ev_value : value
}.

Inductive Action : Type :=
| PropSet (name : string) (v : value)
| Trigger (ev : Event)
| WidgetSetValue (v : value).

(** ** The world and the monad *)

Record World : Type := {
  input : option JQuery;
  colorpicker : Colorpicker;
  trace : list Action
}.

Definition set_input (i : option JQuery) (w : World) : World :=
  {| input := i; colorpicker := colorpicker w; trace := trace w |}.

Definition set_colorpicker (cp : Colorpicker) (w : World) : World :=
  {| input := input w; colorpicker := cp; trace := trace w |}.

Definition emit (a : Action) (w : World) : World :=
  {| input := input w; colorpicker := colorpicker w;
     trace := trace w ++ [a] |}.

Inductive exn : Type := TypeError.

Inductive result (A : Type) : Type :=
| Ok (a : A)
| Throw (err : exn).

Arguments Ok {A} a.
Arguments Throw {A} err.

Definition M (A : Type) : Type := World -> result (A * World).

Definition ret {A} (a : A) : M A := fun w => Ok (a, w).

Definition mbind {A B} (m : M A) (k : A -> M B) : M B :=
  fun w =>
    match m w with
    | Ok (a, w') => k a w'
    | Throw err => Throw err
    end.

Definition gets {A} (f : World -> A) : M A := fun w => Ok (f w, w).

Definition modify (f : World -> World) : M unit := fun w => Ok (tt, f w).

Declare Scope js_scope.
Delimit Scope js_scope with js.
Notation "x <- m ;; k" := (mbind m (fun x => k))
  (at level 61, m at next level, right associativity) : js_scope.
Notation "m ;; k" := (mbind m (fun _ => k))
  (at level 61, right associativity) : js_scope.
Open Scope js_scope.

(** A method call [this.input.f(...)]: a [TypeError] when [this.input] is
    [false].  [input_get] is a call that reads the jQuery object,
    [input_upd] one that changes it. *)
Definition input_get {A} (f : JQuery -> A) : M A :=
  fun w =>
    match input w with
    | Some jq => Ok (f jq, w)
    | None => Throw TypeError
    end.

Definition input_upd (f : JQuery -> JQuery) : M unit :=
  fun w =>
    match input w with
    | Some jq => Ok (tt, set_input (Some (f jq)) w)
    | None => Throw TypeError
    end.

Definition input_val : M value := input_get jq_val.

Definition input_data_color : M value := input_get data_color.

Definition input_attr_data_color : M value := input_get attr_data_color.

Definition input_prop (name : string) : M value := input_get (jq_prop name).

Definition input_prop_set (name : string) (v : value) : M unit :=
  input_upd (jq_prop_set name v) ;;
  modify (emit (PropSet name v)).

Definition input_on (type ns : string) (h : Handler) : M unit :=
  input_upd (jq_on type ns h).

Definition input_off (ns : string) : M unit :=
  input_upd (jq_off ns).

(** [this.input.trigger(ev)]: the dispatch, recorded.  Running the
    handlers subscribed to the event is the dispatcher's part. *)
Definition input_trigger (ev : Event) : M unit :=
  input_get (fun _ => tt) ;;
  modify (emit (Trigger ev)).

(** [this.colorpicker.setValue(v)], the widget's colour-setting entry
    point: an outward call, recorded. *)
Definition colorpicker_setValue (v : value) : M unit :=
  modify (emit (WidgetSetValue v)).

Definition set_lastEvent_alias (a : value) : M unit :=
  modify (fun w =>
    set_colorpicker
      (set_lastEvent {| alias := a; e := e (lastEvent (colorpicker w)) |}
         (colorpicker w)) w).

Definition set_lastEvent_e (ev : value) : M unit :=
  modify (fun w =>
    set_colorpicker
      (set_lastEvent {| alias := alias (lastEvent (colorpicker w)); e := ev |}
         (colorpicker w)) w).

(** ** The class *)

Section InputHandler.

(** Modelled from the spec: the widget's [resolveColor], which lives in
    the widget's own file; the spec gives it as a function to strings. *)
Variable resolveColor : value -> string.

(** Modelled from the spec: [Color.prototype.toString(format)], the colour
    model's render-as-string operation, on the colour a reference holds. *)
Variable Color_toString : nat -> value -> string.

Definition hasInput : M bool :=
  gets (fun w => match input w with Some _ => true | None => false end).

Definition bind : M unit :=
  has <- hasInput ;;
  if negb has then ret tt
  else
    input_on "keyup" "colorpicker" Honkeyup ;;
    input_on "change" "colorpicker" Honchange.

Definition unbind : M unit :=
  has <- hasInput ;;
  if negb has then ret tt
  else input_off "colorpicker".

Definition getValue : M value :=
  has <- hasInput ;;
  if negb has then ret (VBool false)
  else input_val.

Definition setValue (val : value) : M unit :=
  has <- hasInput ;;
  if negb has then ret tt
  else
    inputVal <- input_prop "value" ;;
    let val := if truthy val then val else VStr "" in
    if strict_eq val (if truthy inputVal then inputVal else VStr "")
    then ret tt
    else
      input_prop_set "value" val ;;
      col <- gets (fun w => color (colorpicker w)) ;;
      input_trigger {| ev_type := "change"; ev_color := col;
                       ev_value := val |}.

Definition getFormattedColor (val : value) : M string :=
  val <- (if truthy val then ret val
          else gets (fun w => safeColorString (colorpicker w))) ;;
  if negb (truthy val) then ret ""
  else
    let val := resolveColor val in
    hash <- gets (fun w => useHashPrefix (options (colorpicker w))) ;;
    let val := if strict_eq hash (VBool false)
               then replace_caret_hash_g val else val in
    ret val.

Definition isDisabled : M bool :=
  has <- hasInput ;;
  if has
  then d <- input_prop "disabled" ;; ret (strict_eq d (VBool true))
  else ret false.

Definition disable : M unit :=
  has <- hasInput ;;
  if has then input_prop_set "disabled" (VBool true) else ret tt.

Definition enable : M unit :=
  has <- hasInput ;;
  if has then input_prop_set "disabled" (VBool false) else ret tt.

Definition update : M unit :=
  has <- hasInput ;;
  if negb has then ret tt
  else
    fallback <- gets (fun w => autoInputFallback (options (colorpicker w))) ;;
    preventsUpdate <-
      (if negb (strict_eq fallback (VBool true))
       then
         invalid <- gets (fun w => invalidColor (colorpicker w)) ;;
         if invalid then ret true
         else
           a <- gets (fun w => alias (lastEvent (colorpicker w))) ;;
           ret (strict_eq a (VStr "input.keyup"))
       else ret false) ;;
    if (preventsUpdate : bool) then ret tt
    else
      fc <- getFormattedColor VNull ;;
      setValue (VStr fc).

(** The two handlers, over whatever [this.colorpicker.setValue] is: the
    widget's entry point is a computation of its own, free to read and
    change the world it is called in. *)
Definition onchange_with (widget_setValue : value -> M unit) (ev : value)
  : M unit :=
  set_lastEvent_alias (VStr "input.change") ;;
  set_lastEvent_e ev ;;
  val <- getValue ;;
  fc <- getFormattedColor VNull ;;
  if negb (strict_eq val (VStr fc))
  then widget_setValue val
  else ret tt.

Definition onkeyup_with (widget_setValue : value -> M unit) (ev : value)
  : M unit :=
  set_lastEvent_alias (VStr "input.keyup") ;;
  set_lastEvent_e ev ;;
  val <- getValue ;;
  fc <- getFormattedColor VNull ;;
  if negb (strict_eq val (VStr fc))
  then widget_setValue val
  else ret tt.

(** The handlers with the widget's entry point as an outward call. *)
Definition onchange (ev : value) : M unit :=
  onchange_with colorpicker_setValue ev.

Definition onkeyup (ev : value) : M unit :=
  onkeyup_with colorpicker_setValue ev.

(** The closure [_initValue] maps over the candidates: it assigns the
    captured [val] when the item is truthy and [val] is still [''].  *)
Definition pick_candidate (val item : value) : value :=
  if truthy item && strict_eq val (VStr "") then item else val.

Definition _initValue : M unit :=
  has <- hasInput ;;
  if negb has then ret tt
  else
    c1 <- input_val ;;
    c2 <- input_data_color ;;
    c3 <- input_attr_data_color ;;
    let val := fold_left pick_candidate [c1; c2; c3] (VStr "") in
    val <- match val with
           | VColor ref =>
               fmt <- gets (fun w => format (colorpicker w)) ;;
               s <- getFormattedColor (VStr (Color_toString ref fmt)) ;;
               ret (VStr s)
           | _ => if negb (is_string val) then ret (VStr "") else ret val
           end ;;
    input_prop_set "value" val.

(** The field the constructor resolves: the widget's element when it is an
    input, else what the configured selector finds, else [false]; an empty
    jQuery object counts as [false]. *)
Definition resolve_input (cp : Colorpicker) : option JQuery :=
  let found :=
    if el_is_input (element cp) then Some (el_jq (element cp))
    else if truthy (opt_input (options cp))
         then Some (el_find (element cp) (opt_input (options cp)))
         else None in
  match found with
  | Some jq => if (jq_length jq =? 0)%nat then None else Some jq
  | None => None
  end.

Definition constructor (cp : Colorpicker) : result (unit * World) :=
  _initValue {| input := resolve_input cp; colorpicker := cp; trace := [] |}.

End InputHandler.

(** ** Vocabulary of the statements *)

(** A computation that returns without raising and leaves the world as it
    found it. *)
Definition noop {A} (m : M A) (w : World) : Prop :=
  exists a, m w = Ok (a, w).

(** The actions a computation appended to the trace, between the world
    before and the world after. *)
Definition performed (w w' : World) : list Action :=
  skipn (List.length (trace w)) (trace w').

Definition is_value_write (a : Action) : bool :=
  match a with
  | PropSet name _ => name =? "value"
  | _ => false
  end.

Definition is_event (a : Action) : bool :=
  match a with
  | Trigger _ => true
  | _ => false
  end.

Definition is_widget_call (a : Action) : bool :=
  match a with
  | WidgetSetValue _ => true
  | _ => false
  end.

Definition count_actions (p : Action -> bool) (t : list Action) : nat :=
  List.length (filter p t).

(** The string [getFormattedColor(val)] returns for a widget state; the
    method reads the widget only (see [getFormattedColor_reads]). *)
Definition formatted (resolveColor : value -> string) (val : value)
    (cp : Colorpicker) : string :=
  match getFormattedColor resolveColor val
          {| input := None; colorpicker := cp; trace := [] |} with
  | Ok (s, _) => s
  | Throw _ => ""
  end.

(** The world after a user-origin handler has recorded its interaction. *)
Definition record_interaction (a : string) (ev : value) (w : World) : World :=
  set_colorpicker
    (set_lastEvent {| alias := VStr a; e := ev |} (colorpicker w)) w.

(** A handler as the constructor's assignments leave it: nothing traced
    yet. *)
Definition world_of (i : option JQuery) (cp : Colorpicker) : World :=
  {| input := i; colorpicker := cp; trace := [] |}.

(** The change event [setValue] dispatches for a written value. *)
Definition change_event (w : World) (val : value) : Event :=
  {| ev_type := "change"; ev_color := color (colorpicker w);
     ev_value := val |}.

(** The world after [setValue] has written [val] into the field [jq]. *)
Definition written (val : value) (jq : JQuery) (w : World) : World :=
  emit (Trigger (change_event w val))
    (emit (PropSet "value" val)
       (set_input (Some (set_prop_value val jq)) w)).


(** The suppression condition in the spec's words. *)
Definition suppressed (cp : Colorpicker) : Prop :=
  autoInputFallback (options cp) <> VBool true /\
  (invalidColor cp = true \/ alias (lastEvent cp) = VStr "input.keyup").

(** The flag [update] computes. *)
Definition preventsUpdate (cp : Colorpicker) : bool :=
  negb (strict_eq (autoInputFallback (options cp)) (VBool true)) &&
  (invalidColor cp || strict_eq (alias (lastEvent cp)) (VStr "input.keyup")).

(** The value [getFormattedColor(val)] hands to [resolveColor]: the
    argument, or the widget's safe colour string when the argument is
    falsy. *)
Definition color_source (val : value) (cp : Colorpicker) : value :=
  if truthy val then val else safeColorString cp.

Definition strip_one_hash (s : string) : string :=
  match s with
  | String c rest => if Ascii.eqb c "#" then rest else s
  | EmptyString => s
  end.

Fixpoint hashes (n : nat) : string :=
  match n with
  | O => EmptyString
  | S k => String "#" (hashes k)
  end.

(** What the field reads as: [getValue()]'s result. *)
Definition field_text (w : World) : value :=
  match input w with
  | Some jq => jq_val jq
  | None => VBool false
  end.

(** The world a handler leaves: the interaction recorded and, when the
    text read differs from the formatted colour, one call of the widget's
    [setValue] with that text. *)
Definition delegated (a : string) (ev : value) (differs : bool) (w : World)
  : World :=
  if differs
  then emit (WidgetSetValue (field_text w)) (record_interaction a ev w)
  else record_interaction a ev w.

Definition differs_from_model (rc : value -> string) (w : World) : bool :=
  negb (strict_eq (field_text w) (VStr (formatted rc VNull (colorpicker w)))).

(** The value the constructor writes into the field [jq] of the widget
    [cp], in the spec's words: the first non-empty candidate among the
    field's value, its [color] data and its [data-color] attribute; a
    colour instance rendered and formatted, a string kept, anything else
    replaced by the empty string. *)
Definition seed (rc : value -> string) (ct : nat -> value -> string)
    (jq : JQuery) (cp : Colorpicker) : value :=
  match find truthy [jq_val jq; data_color jq; attr_data_color jq] with
  | Some (VColor ref) => VStr (formatted rc (VStr (ct ref (format cp))) cp)
  | Some v => if is_string v then v else VStr ""
  | None => VStr ""
  end.

Definition with_selector (sel : value) (cp : Colorpicker) : Colorpicker :=
  {| element := element cp;
     options := {| opt_input := sel;
                   useHashPrefix := useHashPrefix (options cp);
                   autoInputFallback := autoInputFallback (options cp) |};
     format := format cp; color := color cp; lastEvent := lastEvent cp;
     safeColorString := safeColorString cp;
     invalidColor := invalidColor cp |}.

(** ** Sample widgets and fields *)

(** A widget without extensions resolves a colour string to itself. *)
Definition resolve_plain (v : value) : string :=
  match v with
  | VStr s => s
  | _ => ""
  end.

(** A colour model whose every colour renders as one fixed string. *)
Definition render_fixed (s : string) (ref : nat) (fmt : value) : string := s.

Definition blank_field : JQuery :=
  {| jq_length := 1; prop_value := VStr ""; prop_disabled := VBool false;
     data_color := VUndefined; attr_data_color := VUndefined;
     subscriptions := [] |}.

Definition empty_jquery : JQuery :=
  {| jq_length := 0; prop_value := VUndefined; prop_disabled := VUndefined;
     data_color := VUndefined; attr_data_color := VUndefined;
     subscriptions := [] |}.

Definition field_with (text : string) : JQuery :=
  set_prop_value (VStr text) blank_field.

(** A container element in which no selector finds anything. *)
Definition bare_container : Element :=
  {| el_jq := set_prop_value VUndefined blank_field; el_is_input := false;
     el_find := fun _ => empty_jquery |}.

Definition widget_with (el : Element) (o : Options) (safe : string)
    (le : LastEvent) : Colorpicker :=
  {| element := el; options := o; format := VStr "hex"; color := VColor 0;
     lastEvent := le; safeColorString := VStr safe; invalidColor := false |}.

Definition default_options : Options :=
  {| opt_input := VStr "input"; useHashPrefix := VBool true;
     autoInputFallback := VBool true |}.

Definition no_interaction : LastEvent := {| alias := VNull; e := VNull |}.

(** A handler whose widget sits on a container without any field. *)
Definition fieldless_world : World :=
  world_of None (widget_with bare_container default_options "#0000ff"
                   no_interaction).

(** A widget in the middle of typing: no automatic fallback, a valid
    colour, and a key release as the last interaction. *)
Definition typing_world : World :=
  world_of (Some (field_with "#00f"))
    (widget_with bare_container
       {| opt_input := VStr "input"; useHashPrefix := VBool true;
          autoInputFallback := VBool false |}
       "#0000ff" {| alias := VStr "input.keyup"; e := VObject 1 |}).

Definition idle_world : World :=
  world_of (Some (field_with "#00f"))
    (widget_with bare_container default_options "#0000ff" no_interaction).

Definition without_hash_prefix : Options :=
  {| opt_input := VStr "input"; useHashPrefix := VBool false;
     autoInputFallback := VBool true |}.

Definition bare_hex_world : World :=
  world_of (Some blank_field)
    (widget_with bare_container without_hash_prefix "#ff0000" no_interaction).

Definition falsy_hash_option_world (o : value) : World :=
  world_of (Some blank_field)
    (widget_with bare_container
       {| opt_input := VStr "input"; useHashPrefix := o;
          autoInputFallback := VBool true |}
       "#ff0000" no_interaction).

(** An input element without a value whose [data-color] attribute is
    ["#123456"]. *)
Definition attribute_only_field : JQuery :=
  {| jq_length := 1; prop_value := VStr ""; prop_disabled := VBool false;
     data_color := VUndefined; attr_data_color := VStr "#123456";
     subscriptions := [] |}.

(** A field whose [color] data holds a colour instance. *)
Definition color_data_field : JQuery :=
  {| jq_length := 1; prop_value := VStr ""; prop_disabled := VBool false;
     data_color := VColor 3; attr_data_color := VStr "#123456";
     subscriptions := [] |}.

Definition input_element (jq : JQuery) : Element :=
  {| el_jq := jq; el_is_input := true; el_find := fun _ => empty_jquery |}.

(** ** The class in use *)

(** A call of one of the class's methods, by the widget or by the event
    dispatcher, its result dropped. *)
Inductive Call : Type :=
| CallBind
| CallUnbind
| CallInitValue
| CallGetValue
| CallSetValue (val : value)
| CallGetFormattedColor (val : value)
| CallHasInput
| CallIsDisabled
| CallDisable
| CallEnable
| CallUpdate
| CallOnchange (ev : value)
| CallOnkeyup (ev : value).

Definition discard {A} (m : M A) : M unit := m ;; ret tt.

Definition call (rc : value -> string) (ct : nat -> value -> string)
    (c : Call) : M unit :=
  match c with
  | CallBind => bind
  | CallUnbind => unbind
  | CallInitValue => _initValue rc ct
  | CallGetValue => discard getValue
  | CallSetValue val => setValue val
  | CallGetFormattedColor val => discard (getFormattedColor rc val)
  | CallHasInput => discard hasInput
  | CallIsDisabled => discard isDisabled
  | CallDisable => disable
  | CallEnable => enable
  | CallUpdate => update rc
  | CallOnchange ev => onchange rc ev
  | CallOnkeyup ev => onkeyup rc ev
  end.

Fixpoint calls (rc : value -> string) (ct : nat -> value -> string)
    (cs : list Call) : M unit :=
  match cs with
  | [] => ret tt
  | c :: cs' => call rc ct c ;; calls rc ct cs'
  end.

(** The field of [w'] is the field of [w] as far as its presence, its
    length, its [color] data and its [data-color] attribute go. *)
Definition same_field_identity (w w' : World) : Prop :=
  match input w, input w' with
  | None, None => True
  | Some jq, Some jq' =>
      jq_length jq' = jq_length jq /\
      data_color jq' = data_color jq /\
      attr_data_color jq' = attr_data_color jq
  | _, _ => False
  end.

(** The widget of [w'] is the widget of [w] in all but the Last
    Interaction Record, whose alias is the one of [w] or one of the two
    the handlers write. *)
Definition same_widget_but_lastEvent (w w' : World) : Prop :=
  element (colorpicker w') = element (colorpicker w) /\
  options (colorpicker w') = options (colorpicker w) /\
  format (colorpicker w') = format (colorpicker w) /\
  color (colorpicker w') = color (colorpicker w) /\
  safeColorString (colorpicker w') = safeColorString (colorpicker w) /\
  invalidColor (colorpicker w') = invalidColor (colorpicker w) /\
  (alias (lastEvent (colorpicker w')) = alias (lastEvent (colorpicker w)) \/
   alias (lastEvent (colorpicker w')) = VStr "input.change" \/
   alias (lastEvent (colorpicker w')) = VStr "input.keyup").

Definition Handler_eqb (a b : Handler) : bool :=
  match a, b with
  | Honkeyup, Honkeyup => true
  | Honchange, Honchange => true
  | _, _ => false
  end.

(** How many times the handler [h] is subscribed to the event [type] in
    the namespace [ns]. *)
Definition subscribed (type ns : string) (h : Handler) (jq : JQuery) : nat :=
  List.length
    (filter (fun s => (sub_type s =? type) && (sub_namespace s =? ns) &&
                      Handler_eqb (sub_handler s) h)
       (subscriptions jq)).

(** No subscription of the field carries the namespace [ns]. *)
Definition namespace_unused (ns : string) (jq : JQuery) : Prop :=
  Forall (fun s => carries_namespace ns s = false) (subscriptions jq).






(** Every dispatched event comes right after the write of the value it
    carries. *)
Fixpoint events_follow_writes (t : list Action) : bool :=
  match t with
  | [] => true
  | Trigger _ :: _ => false
  | PropSet name v :: rest =>
      match rest with
      | Trigger ev :: rest' =>
          (name =? "value") && strict_eq v (ev_value ev) &&
          events_follow_writes rest'
      | _ => events_follow_writes rest
      end
  | WidgetSetValue _ :: rest => events_follow_writes rest
  end.

(** What a run of calls keeps: the field's identity, the widget but for
    the Last Interaction Record, a trace that only grew, and in what it
    grew by every event right after its write. *)
Definition orderly (w w' : World) : Prop :=
  same_field_identity w w' /\
  same_widget_but_lastEvent w w' /\
  exists l, trace w' = trace w ++ l /\ events_follow_writes l = true.


(** A widget entry point that reports the alias it finds in the Last
    Interaction Record when it is called. *)
Definition alias_probe (v : value) : M unit :=
  fun w => Ok (tt, emit (WidgetSetValue (alias (lastEvent (colorpicker w)))) w).

(** A field with two subscriptions of other origins, one of them without
    a namespace. *)
Definition foreign_subscriptions : list Subscription :=
  [{| sub_type := "change"; sub_namespace := "validation";
      sub_handler := Honchange |};
   {| sub_type := "keyup"; sub_namespace := ""; sub_handler := Honkeyup |}].

Definition busy_field : JQuery :=
  set_subscriptions foreign_subscriptions (field_with "#00ff00").

(** A field on which another party subscribed under the widget's
    namespace and one of its own: ['change.colorpicker.audit']. *)
Definition shared_namespace_field : JQuery :=
  set_subscriptions
    ({| sub_type := "change"; sub_namespace := "colorpicker.audit";
        sub_handler := Honchange |} :: foreign_subscriptions)
    (field_with "#00ff00").

(** A field without a value whose [data-color] attribute is a string of
    digits: jQuery's [data] reads it as a number, [attr] as a string. *)
Definition numeric_data_field : JQuery :=
  {| jq_length := 1; prop_value := VStr ""; prop_disabled := VBool false;
     data_color := VNum 123456; attr_data_color := VStr "123456";
     subscriptions := [] |}.

Definition session : list Call :=
  [CallInitValue; CallBind; CallOnkeyup (VObject 1); CallUpdate;
   CallOnchange (VObject 2); CallUpdate; CallSetValue (VStr "#abc");
   CallDisable; CallIsDisabled; CallSetValue VNull; CallEnable;
   CallGetValue; CallGetFormattedColor VNull; CallHasInput; CallUnbind].

(** ** Basic facts *)

Lemma strict_eq_spec (a b : value) : strict_eq a b = true <-> a = b.
Proof.
  split.
  - destruct a, b; simpl; intros H; try discriminate; try reflexivity.
    + apply Bool.eqb_prop in H. now subst.
    + apply Z.eqb_eq in H. now subst.
    + apply String.eqb_eq in H. now subst.
    + apply Nat.eqb_eq in H. now subst.
    + apply Nat.eqb_eq in H. now subst.
    + apply Nat.eqb_eq in H. now subst.
  - intros <-. destruct a; simpl; auto.
    + apply Bool.eqb_reflx.
    + apply Z.eqb_refl.
    + apply String.eqb_refl.
    + apply Nat.eqb_refl.
    + apply Nat.eqb_refl.
    + apply Nat.eqb_refl.
Qed.

Lemma strict_eq_refl (a : value) : strict_eq a a = true.
Proof. now apply strict_eq_spec. Qed.

Lemma strict_neq_spec (a b : value) : strict_eq a b = false <-> a <> b.
Proof.
  rewrite <- strict_eq_spec. destruct (strict_eq a b); split; congruence.
Qed.

Lemma or_empty_idem (v : value) : or_empty (or_empty v) = or_empty v.
Proof.
  unfold or_empty. destruct (truthy v) eqn:T; [now rewrite T | reflexivity].
Qed.

Lemma truthy_not_empty (v : value) :
  truthy v = true -> strict_eq v (VStr "") = false.
Proof. destruct v; simpl; try reflexivity. destruct s; simpl; congruence. Qed.

Lemma world_eta (w : World) :
  {| input := input w; colorpicker := colorpicker w; trace := trace w |} = w.
Proof. now destruct w. Qed.

Lemma performed_app (w w' : World) (l : list Action) :
  trace w' = trace w ++ l -> performed w w' = l.
Proof.
  intros H. unfold performed. rewrite H.
  rewrite skipn_app, skipn_all, Nat.sub_diag. reflexivity.
Qed.

Lemma performed_same (w : World) : performed w w = [].
Proof. apply performed_app. now rewrite app_nil_r. Qed.

(** [getFormattedColor] reads the widget's options and colour state and
    nothing else: it returns [formatted] and leaves the world alone. *)
Lemma getFormattedColor_reads rc (v : value) (w : World) :
  getFormattedColor rc v w = Ok (formatted rc v (colorpicker w), w).
Proof.
  unfold formatted, getFormattedColor, mbind, gets, ret. simpl.
  destruct (truthy v) eqn:T; simpl.
  - rewrite T. reflexivity.
  - destruct (truthy (safeColorString (colorpicker w))); reflexivity.
Qed.

Lemma formatted_set_lastEvent rc (v : value) le (cp : Colorpicker) :
  formatted rc v (set_lastEvent le cp) = formatted rc v cp.
Proof.
  unfold formatted, getFormattedColor, mbind, gets, ret. simpl.
  destruct (truthy v) eqn:T; simpl.
  - rewrite T. reflexivity.
  - destruct (truthy (safeColorString cp)); reflexivity.
Qed.

(** One leading ['#'] is all the pattern can match. *)
Lemma replace_caret_hash_from_S (i : nat) (s : string) :
  replace_caret_hash_from (S i) s = s.
Proof.
  revert i. induction s as [|c s IH]; intros i; simpl; [reflexivity|].
  now rewrite IH.
Qed.

Lemma replace_caret_hash_g_hash (s : string) :
  replace_caret_hash_g (String "#" s) = s.
Proof.
  unfold replace_caret_hash_g. simpl. apply replace_caret_hash_from_S.
Qed.

Lemma replace_caret_hash_g_other (c : ascii) (s : string) :
  c <> "#"%char -> replace_caret_hash_g (String c s) = String c s.
Proof.
  intros H. unfold replace_caret_hash_g.
  cbn [replace_caret_hash_from matches_caret_hash Nat.eqb andb].
  apply Ascii.eqb_neq in H. rewrite H.
  now rewrite replace_caret_hash_from_S.
Qed.

Lemma pick_candidate_keeps (l : list value) (v : value) :
  strict_eq v (VStr "") = false -> fold_left pick_candidate l v = v.
Proof.
  intros H. induction l as [|a l IH]; simpl; [reflexivity|].
  unfold pick_candidate at 2. rewrite H, andb_false_r. exact IH.
Qed.

(** The closure over the candidates picks the first truthy one. *)
Lemma pick_candidate_first (l : list value) :
  fold_left pick_candidate l (VStr "") =
  match find truthy l with
  | Some v => v
  | None => VStr ""
  end.
Proof.
  induction l as [|a l IH]; simpl; [reflexivity|].
  unfold pick_candidate at 2. simpl. rewrite andb_true_r.
  destruct (truthy a) eqn:T.
  - apply pick_candidate_keeps. now apply truthy_not_empty.
  - exact IH.
Qed.

Ltac run_guarded H :=
  unfold mbind, hasInput, gets, ret, modify, input_get, input_upd;
  rewrite ?H; cbn [negb fst snd].

Lemma constructor_without_field rc ct (cp : Colorpicker) :
  resolve_input cp = None ->
  constructor rc ct cp = Ok (tt, world_of None cp).
Proof.
  intros H. unfold constructor, _initValue, world_of.
  unfold mbind, hasInput, gets, ret. simpl. now rewrite H.
Qed.

(** ** The handler without a field *)

(** C1, as amended.  On a handler whose field is absent every operation
    returns without raising.  All of them except the two user-origin
    handlers leave the world as it is, the Last Interaction Record
    included, and [getValue] returns [false].  [onchange] and [onkeyup]
    carry no guard: they overwrite the Last Interaction Record and hand
    [false] to the widget's colour-setting entry point. *)
Theorem no_field_operations rc ct (w : World) (H : input w = None) :
  hasInput w = Ok (false, w) /\
  bind w = Ok (tt, w) /\
  unbind w = Ok (tt, w) /\
  _initValue rc ct w = Ok (tt, w) /\
  getValue w = Ok (VBool false, w) /\
  (forall v, setValue v w = Ok (tt, w)) /\
  (forall v, noop (getFormattedColor rc v) w) /\
  isDisabled w = Ok (false, w) /\
  disable w = Ok (tt, w) /\
  enable w = Ok (tt, w) /\
  update rc w = Ok (tt, w) /\
  (forall ev,
     onchange rc ev w =
     Ok (tt, emit (WidgetSetValue (VBool false))
               (record_interaction "input.change" ev w))) /\
  (forall ev,
     onkeyup rc ev w =
     Ok (tt, emit (WidgetSetValue (VBool false))
               (record_interaction "input.keyup" ev w))).
Proof.
  repeat split.
  - unfold hasInput, gets. now rewrite H.
  - unfold bind. run_guarded H. reflexivity.
  - unfold unbind. run_guarded H. reflexivity.
  - unfold _initValue. run_guarded H. reflexivity.
  - unfold getValue. run_guarded H. reflexivity.
  - intros v. unfold setValue. run_guarded H. reflexivity.
  - intros v. eexists. apply getFormattedColor_reads.
  - unfold isDisabled. run_guarded H. reflexivity.
  - unfold disable. run_guarded H. reflexivity.
  - unfold enable. run_guarded H. reflexivity.
  - unfold update. run_guarded H. reflexivity.
  - intros ev. unfold onchange, onchange_with. unfold mbind at 1 2 3.
    unfold set_lastEvent_alias, set_lastEvent_e, modify.
    unfold getValue. run_guarded H. simpl. rewrite H. simpl.
    fold (@mbind string unit). unfold mbind.
    rewrite getFormattedColor_reads. reflexivity.
  - intros ev. unfold onkeyup, onkeyup_with. unfold mbind at 1 2 3.
    unfold set_lastEvent_alias, set_lastEvent_e, modify.
    unfold getValue. run_guarded H. simpl. rewrite H. simpl.
    fold (@mbind string unit). unfold mbind.
    rewrite getFormattedColor_reads. reflexivity.
Qed.

Lemma no_field_operations_witness :
  input fieldless_world = None /\
  update resolve_plain fieldless_world = Ok (tt, fieldless_world) /\
  getValue fieldless_world = Ok (VBool false, fieldless_world).
Proof.
  pose proof (no_field_operations resolve_plain (render_fixed "#123456")
                fieldless_world eq_refl) as P.
  split; [reflexivity|]. split; apply P.
Defined.

(** C1, as stated, fails at [onchange]: called on a handler without a
    field it is not a no-op, and the Last Interaction Record it leaves
    differs from the one it found. *)
Lemma no_field_onchange_counterexample :
  input fieldless_world = None /\
  ~ noop (onchange resolve_plain (VObject 1)) fieldless_world /\
  exists w',
    onchange resolve_plain (VObject 1) fieldless_world = Ok (tt, w') /\
    lastEvent (colorpicker w') =
      {| alias := VStr "input.change"; e := VObject 1 |} /\
    lastEvent (colorpicker w') <> lastEvent (colorpicker fieldless_world) /\
    trace w' = [WidgetSetValue (VBool false)].
Proof.
  split; [reflexivity|]. split.
  - intros [a Ha]. vm_compute in Ha. discriminate.
  - eexists. split; [vm_compute; reflexivity|].
    split; [reflexivity|]. split; [discriminate | reflexivity].
Qed.

(** ** Reading the field *)

Lemma getValue_run (w : World) :
  getValue w =
  Ok (match input w with
      | Some jq => jq_val jq
      | None => VBool false
      end, w).
Proof.
  unfold getValue, input_val. run_guarded (@eq_refl _ w).
  destruct (input w) eqn:E; cbn [negb]; rewrite ?E; reflexivity.
Qed.

(** C7.  [getValue] returns what [val()] reads from the field when there
    is one and the boolean [false] when there is none; a field holding a
    text, the empty one included, never reads as that sentinel. *)
Theorem getValue_text_or_false (w : World) :
  (forall jq, input w = Some jq -> getValue w = Ok (jq_val jq, w)) /\
  (input w = None -> getValue w = Ok (VBool false, w)) /\
  (forall jq s,
     input w = Some jq -> prop_value jq = VStr s ->
     getValue w = Ok (VStr s, w) /\ VStr s <> VBool false).
Proof.
  rewrite getValue_run. repeat split.
  - intros jq ->. reflexivity.
  - intros ->. reflexivity.
  - rewrite H. unfold jq_val. now rewrite H0.
  - discriminate.
Qed.

Lemma getValue_text_or_false_witness :
  getValue (world_of (Some (field_with "")) (colorpicker fieldless_world)) =
    Ok (VStr "", world_of (Some (field_with "")) (colorpicker fieldless_world))
  /\ getValue fieldless_world = Ok (VBool false, fieldless_world).
Proof.
  split.
  - apply (proj2 (proj2 (getValue_text_or_false
             (world_of (Some (field_with "")) (colorpicker fieldless_world))))
             (field_with "") "" eq_refl eq_refl).
  - apply (proj1 (proj2 (getValue_text_or_false fieldless_world)) eq_refl).
Defined.

(** ** The disabled flag *)

Lemma isDisabled_run (w : World) :
  isDisabled w =
  Ok (match input w with
      | Some jq => strict_eq (prop_disabled jq) (VBool true)
      | None => false
      end, w).
Proof.
  unfold isDisabled, input_prop. run_guarded (@eq_refl _ w).
  destruct (input w) eqn:E; cbn [negb]; rewrite ?E; reflexivity.
Qed.

Lemma set_disabled_run (b : bool) (w : World) :
  (has <- hasInput ;;
   if has then input_prop_set "disabled" (VBool b) else ret tt) w =
  Ok (tt, match input w with
          | Some jq =>
              emit (PropSet "disabled" (VBool b))
                (set_input (Some (set_prop_disabled (VBool b) jq)) w)
          | None => w
          end).
Proof.
  unfold input_prop_set. run_guarded (@eq_refl _ w).
  destruct (input w) eqn:E; cbn [negb]; rewrite ?E; reflexivity.
Qed.

(** C8.  With a field, [disable] sets and [enable] clears the field's
    disabled property and touch nothing else of the field or the widget;
    without a field both do nothing; neither dispatches an event.
    [isDisabled] is true exactly when a field exists whose disabled
    property is [true]. *)
Theorem disable_enable_flag_only (w : World) :
  (forall jq, input w = Some jq ->
     disable w =
       Ok (tt, emit (PropSet "disabled" (VBool true))
                 (set_input (Some (set_prop_disabled (VBool true) jq)) w)) /\
     enable w =
       Ok (tt, emit (PropSet "disabled" (VBool false))
                 (set_input (Some (set_prop_disabled (VBool false) jq)) w))) /\
  (input w = None -> disable w = Ok (tt, w) /\ enable w = Ok (tt, w)) /\
  (exists wd we,
     disable w = Ok (tt, wd) /\ enable w = Ok (tt, we) /\
     count_actions is_event (performed w wd) = 0 /\
     count_actions is_event (performed w we) = 0 /\
     colorpicker wd = colorpicker w /\ colorpicker we = colorpicker w) /\
  (exists b,
     isDisabled w = Ok (b, w) /\
     (b = true <->
      exists jq, input w = Some jq /\ prop_disabled jq = VBool true)).
Proof.
  unfold disable, enable. rewrite !set_disabled_run, isDisabled_run.
  split; [|split; [|split]].
  - intros jq ->. split; reflexivity.
  - intros ->. split; reflexivity.
  - do 2 eexists. split; [reflexivity|]. split; [reflexivity|].
    destruct (input w) as [jq|].
    + rewrite !(performed_app _ _ [PropSet "disabled" _]) by reflexivity.
      repeat split.
    + rewrite performed_same. repeat split.
  - eexists. split; [reflexivity|].
    destruct (input w) as [jq|].
    + rewrite strict_eq_spec. split.
      * intros E. now exists jq.
      * intros [jq' [E1 E2]]. now inversion E1; subst.
    + split; [discriminate|]. intros [jq' [E1 _]]. discriminate.
Qed.

Lemma disable_enable_flag_only_witness :
  (exists w1,
     disable (world_of (Some blank_field) (colorpicker fieldless_world)) =
       Ok (tt, w1) /\
     isDisabled w1 = Ok (true, w1) /\
     trace w1 = [PropSet "disabled" (VBool true)]) /\
  disable fieldless_world = Ok (tt, fieldless_world).
Proof.
  split.
  - eexists. split.
    + apply (proj1 (disable_enable_flag_only
               (world_of (Some blank_field) (colorpicker fieldless_world)))
               blank_field eq_refl).
    + split; reflexivity.
  - apply (proj1 (proj2 (disable_enable_flag_only fieldless_world)) eq_refl).
Defined.

(** ** Writing the field *)

Lemma setValue_run (v : value) (w : World) :
  setValue v w =
  Ok (tt, match input w with
          | Some jq =>
              if strict_eq (or_empty v) (or_empty (prop_value jq)) then w
              else written (or_empty v) jq w
          | None => w
          end).
Proof.
  unfold setValue, input_prop, input_prop_set, input_trigger.
  run_guarded (@eq_refl _ w).
  destruct (input w) as [jq|] eqn:E; cbn [negb]; rewrite ?E; [|reflexivity].
  change (jq_prop "value" jq) with (prop_value jq).
  fold (or_empty v). fold (or_empty (prop_value jq)).
  destruct (strict_eq (or_empty v) (or_empty (prop_value jq)));
    [reflexivity|].
  rewrite E. reflexivity.
Qed.




(** ** Pushing the model colour into the field *)

Lemma preventsUpdate_spec (cp : Colorpicker) :
  preventsUpdate cp = true <-> suppressed cp.
Proof.
  unfold preventsUpdate, suppressed.
  rewrite andb_true_iff, negb_true_iff, orb_true_iff.
  now rewrite strict_neq_spec, strict_eq_spec.
Qed.

Lemma update_run rc (w : World) (jq : JQuery) :
  input w = Some jq ->
  update rc w =
  if preventsUpdate (colorpicker w) then Ok (tt, w)
  else setValue (VStr (formatted rc VNull (colorpicker w))) w.
Proof.
  intros H. unfold update, preventsUpdate.
  unfold mbind at 1. unfold hasInput, gets at 1. rewrite H. cbn [negb].
  unfold mbind at 1. unfold gets at 1.
  destruct (strict_eq (autoInputFallback (options (colorpicker w)))
              (VBool true)); cbn [negb andb].
  - unfold mbind, ret. rewrite getFormattedColor_reads. reflexivity.
  - unfold mbind at 1 2. unfold gets at 1.
    destruct (invalidColor (colorpicker w)); cbn [orb].
    + reflexivity.
    + unfold mbind at 1. unfold gets at 1. unfold ret at 1.
      destruct (strict_eq (alias (lastEvent (colorpicker w)))
                  (VStr "input.keyup")).
      * reflexivity.
      * unfold mbind. rewrite getFormattedColor_reads. reflexivity.
Qed.

(** C3.  On a handler with a field, [update] under the suppression
    condition leaves the world as it is: nothing is written, nothing
    dispatched.  Otherwise it is [setValue] applied to
    [getFormattedColor()], after which the field shows that string.  So a
    world that [update] changed was not under the suppression condition. *)
Theorem update_unless_suppressed rc (w : World) (jq : JQuery)
    (H : input w = Some jq) :
  (suppressed (colorpicker w) -> update rc w = Ok (tt, w)) /\
  (~ suppressed (colorpicker w) ->
   update rc w = setValue (VStr (formatted rc VNull (colorpicker w))) w /\
   exists w' jq',
     update rc w = Ok (tt, w') /\ input w' = Some jq' /\
     or_empty (prop_value jq') = VStr (formatted rc VNull (colorpicker w))) /\
  (forall w', update rc w = Ok (tt, w') -> w' <> w ->
              ~ suppressed (colorpicker w)).
Proof.
  rewrite (update_run rc w jq H).
  destruct (preventsUpdate (colorpicker w)) eqn:P.
  - apply preventsUpdate_spec in P. repeat split; try contradiction.
    intros w' E N. injection E as <-. now elim N.
  - assert (NS : ~ suppressed (colorpicker w)).
    { intros S. apply preventsUpdate_spec in S. congruence. }
    split; [contradiction|]. split; [|intros; exact NS].
    intros _. split; [reflexivity|].
    set (fc := formatted rc VNull (colorpicker w)).
    assert (F : or_empty (VStr fc) = VStr fc).
    { unfold or_empty. simpl. destruct fc; reflexivity. }
    rewrite setValue_run, H.
    destruct (strict_eq (or_empty (VStr fc)) (or_empty (prop_value jq)))
      eqn:E.
    + exists w, jq. apply strict_eq_spec in E.
      repeat split; [assumption | congruence].
    + exists (written (or_empty (VStr fc)) jq w),
        (set_prop_value (or_empty (VStr fc)) jq).
      repeat split. cbn [set_prop_value prop_value].
      now rewrite or_empty_idem.
Qed.

Lemma update_unless_suppressed_witness :
  update resolve_plain typing_world = Ok (tt, typing_world) /\
  update resolve_plain idle_world =
    setValue (VStr "#0000ff") idle_world.
Proof.
  split.
  - apply (proj1 (update_unless_suppressed resolve_plain typing_world
                    (field_with "#00f") eq_refl)).
    split; [discriminate | right; reflexivity].
  - apply (proj1 (proj2 (update_unless_suppressed resolve_plain idle_world
                           (field_with "#00f") eq_refl))).
    intros [N _]. now apply N.
Defined.

(** ** Formatting *)

Lemma replace_caret_hash_g_strips_one (s : string) :
  replace_caret_hash_g s = strip_one_hash s.
Proof.
  destruct s as [|c s]; [reflexivity|]. unfold strip_one_hash.
  destruct (Ascii.eqb c "#") eqn:E.
  - apply Ascii.eqb_eq in E. subst c. apply replace_caret_hash_g_hash.
  - apply Ascii.eqb_neq in E. now apply replace_caret_hash_g_other.
Qed.

Lemma getFormattedColor_run rc (v : value) (w : World) :
  truthy (color_source v (colorpicker w)) = true ->
  getFormattedColor rc v w =
  Ok (if strict_eq (useHashPrefix (options (colorpicker w))) (VBool false)
      then replace_caret_hash_g (rc (color_source v (colorpicker w)))
      else rc (color_source v (colorpicker w)), w).
Proof.
  unfold color_source, getFormattedColor, mbind, gets, ret.
  destruct (truthy v) eqn:T; intros S; rewrite S; reflexivity.
Qed.

(** C4, as amended.  With [useHashPrefix] at [false], [getFormattedColor]
    removes one ['#'] from the front of the resolved string when it starts
    with one and returns it as it is otherwise: [n + 1] leading ['#']
    characters come out as [n]. *)
Theorem getFormattedColor_strips_first_hash rc (v : value) (w : World)
    (Hopt : useHashPrefix (options (colorpicker w)) = VBool false)
    (Hsrc : truthy (color_source v (colorpicker w)) = true) :
  getFormattedColor rc v w =
    Ok (strip_one_hash (rc (color_source v (colorpicker w))), w) /\
  (forall n suffix,
     rc (color_source v (colorpicker w)) = (hashes (S n) ++ suffix)%string ->
     getFormattedColor rc v w = Ok ((hashes n ++ suffix)%string, w)) /\
  (forall c rest,
     rc (color_source v (colorpicker w)) = String c rest -> c <> "#"%char ->
     getFormattedColor rc v w = Ok (String c rest, w)).
Proof.
  rewrite (getFormattedColor_run rc v w Hsrc), Hopt.
  cbn [strict_eq Bool.eqb]. rewrite replace_caret_hash_g_strips_one.
  split; [reflexivity|]. split.
  - intros n suffix ->. reflexivity.
  - intros c rest -> N. unfold strip_one_hash.
    apply Ascii.eqb_neq in N. now rewrite N.
Qed.

Lemma getFormattedColor_strips_first_hash_witness :
  getFormattedColor resolve_plain VNull bare_hex_world =
    Ok ("ff0000", bare_hex_world) /\
  getFormattedColor resolve_plain (VStr "##ff0000") bare_hex_world =
    Ok ("#ff0000", bare_hex_world).
Proof.
  split.
  - apply (proj1 (proj2 (getFormattedColor_strips_first_hash resolve_plain
             VNull bare_hex_world eq_refl eq_refl)) 0 "ff0000" eq_refl).
  - apply (proj1 (proj2 (getFormattedColor_strips_first_hash resolve_plain
             (VStr "##ff0000") bare_hex_world eq_refl eq_refl))
             1 "ff0000" eq_refl).
Defined.

(** C4, as stated, fails for two leading ['#']: the resolved string
    ["##ff0000"], two ['#'] and a suffix without any, comes out as
    ["#ff0000"] and not as the bare suffix. *)
Lemma getFormattedColor_two_hashes_counterexample :
  useHashPrefix (options (colorpicker bare_hex_world)) = VBool false /\
  resolve_plain (color_source (VStr "##ff0000") (colorpicker bare_hex_world))
    = (hashes 2 ++ "ff0000")%string /\
  getFormattedColor resolve_plain (VStr "##ff0000") bare_hex_world =
    Ok ("#ff0000", bare_hex_world) /\
  getFormattedColor resolve_plain (VStr "##ff0000") bare_hex_world <>
    Ok ("ff0000", bare_hex_world).
Proof.
  repeat split. vm_compute. discriminate.
Qed.

(** C10.  Whatever [useHashPrefix] holds other than the boolean [false],
    [getFormattedColor] returns the resolved string as [resolveColor] gave
    it; only for [false] does the replacement run. *)
Theorem getFormattedColor_strict_false rc (v : value) (w : World)
    (Hsrc : truthy (color_source v (colorpicker w)) = true) :
  (useHashPrefix (options (colorpicker w)) <> VBool false ->
   getFormattedColor rc v w = Ok (rc (color_source v (colorpicker w)), w)) /\
  (useHashPrefix (options (colorpicker w)) = VBool false ->
   getFormattedColor rc v w =
     Ok (replace_caret_hash_g (rc (color_source v (colorpicker w))), w)).
Proof.
  rewrite (getFormattedColor_run rc v w Hsrc). split.
  - intros N. apply strict_neq_spec in N. now rewrite N.
  - intros ->. reflexivity.
Qed.

Lemma getFormattedColor_strict_false_witness :
  getFormattedColor resolve_plain VNull (falsy_hash_option_world VUndefined) =
    Ok ("#ff0000", falsy_hash_option_world VUndefined) /\
  getFormattedColor resolve_plain VNull (falsy_hash_option_world (VNum 0)) =
    Ok ("#ff0000", falsy_hash_option_world (VNum 0)) /\
  getFormattedColor resolve_plain VNull
    (falsy_hash_option_world (VBool false)) =
    Ok ("ff0000", falsy_hash_option_world (VBool false)).
Proof.
  split; [|split].
  - apply (proj1 (getFormattedColor_strict_false resolve_plain VNull
                    (falsy_hash_option_world VUndefined) eq_refl)).
    discriminate.
  - apply (proj1 (getFormattedColor_strict_false resolve_plain VNull
                    (falsy_hash_option_world (VNum 0)) eq_refl)).
    discriminate.
  - apply (proj2 (getFormattedColor_strict_false resolve_plain VNull
                    (falsy_hash_option_world (VBool false)) eq_refl)).
    reflexivity.
Defined.

(** ** The user-origin handlers *)

Ltac run_handler :=
  unfold mbind at 1 2; unfold set_lastEvent_alias, set_lastEvent_e, modify;
  cbn [set_colorpicker set_lastEvent alias e lastEvent colorpicker];
  unfold mbind at 1; rewrite getValue_run;
  unfold mbind at 1; rewrite getFormattedColor_reads;
  cbn [colorpicker input set_colorpicker];
  rewrite !formatted_set_lastEvent.

Lemma onchange_run rc (ev : value) (w : World) :
  onchange rc ev w =
  Ok (tt, delegated "input.change" ev (differs_from_model rc w) w).
Proof.
  unfold onchange, onchange_with. run_handler.
  unfold delegated, differs_from_model, field_text.
  destruct (negb _); reflexivity.
Qed.

Lemma onkeyup_run rc (ev : value) (w : World) :
  onkeyup rc ev w =
  Ok (tt, delegated "input.keyup" ev (differs_from_model rc w) w).
Proof.
  unfold onkeyup, onkeyup_with. run_handler.
  unfold delegated, differs_from_model, field_text.
  destruct (negb _); reflexivity.
Qed.

Lemma onchange_with_run rc (k : value -> M unit) (ev : value) (w : World) :
  onchange_with rc k ev w =
  if differs_from_model rc w
  then k (field_text w) (record_interaction "input.change" ev w)
  else Ok (tt, record_interaction "input.change" ev w).
Proof.
  unfold onchange_with. run_handler.
  unfold differs_from_model, field_text.
  destruct (negb _); reflexivity.
Qed.

Lemma onkeyup_with_run rc (k : value -> M unit) (ev : value) (w : World) :
  onkeyup_with rc k ev w =
  if differs_from_model rc w
  then k (field_text w) (record_interaction "input.keyup" ev w)
  else Ok (tt, record_interaction "input.keyup" ev w).
Proof.
  unfold onkeyup_with. run_handler.
  unfold differs_from_model, field_text.
  destruct (negb _); reflexivity.
Qed.

(** C5.  [onchange] and [onkeyup] do the same thing under their own alias.
    Whatever the widget's colour-setting entry point is, the handler first
    makes the Last Interaction Record the alias and the triggering event,
    and then, with the text [getValue()] reads, either returns, when the
    text is [getFormattedColor()], or hands the text to the entry point,
    once, as its last step: the entry point runs in the world where the
    record is already overwritten and the field and the trace are as the
    handler found them, and what it returns is what the handler returns.
    With the entry point as an outward call, that is one call when the
    text differs and none when it does not, no write and no event. *)
Theorem handlers_record_then_delegate rc (ev : value) (w : World) :
  getValue w = Ok (field_text w, w) /\
  getFormattedColor rc VNull w = Ok (formatted rc VNull (colorpicker w), w) /\
  (forall k : value -> M unit,
     onchange_with rc k ev w =
       (if negb (strict_eq (field_text w)
                   (VStr (formatted rc VNull (colorpicker w))))
        then k (field_text w) (record_interaction "input.change" ev w)
        else Ok (tt, record_interaction "input.change" ev w)) /\
     onkeyup_with rc k ev w =
       (if negb (strict_eq (field_text w)
                   (VStr (formatted rc VNull (colorpicker w))))
        then k (field_text w) (record_interaction "input.keyup" ev w)
        else Ok (tt, record_interaction "input.keyup" ev w))) /\
  (forall a,
     lastEvent (colorpicker (record_interaction a ev w)) =
       {| alias := VStr a; e := ev |} /\
     input (record_interaction a ev w) = input w /\
     trace (record_interaction a ev w) = trace w) /\
  onchange rc ev w =
    Ok (tt, delegated "input.change" ev (differs_from_model rc w) w) /\
  onkeyup rc ev w =
    Ok (tt, delegated "input.keyup" ev (differs_from_model rc w) w) /\
  forall a,
    let w' := delegated a ev (differs_from_model rc w) w in
    lastEvent (colorpicker w') = {| alias := VStr a; e := ev |} /\
    input w' = input w /\
    performed w w' =
      (if differs_from_model rc w then [WidgetSetValue (field_text w)]
       else []) /\
    (count_actions is_widget_call (performed w w') = 1 <->
     field_text w <> VStr (formatted rc VNull (colorpicker w))) /\
    (count_actions is_widget_call (performed w w') = 0 <->
     field_text w = VStr (formatted rc VNull (colorpicker w))) /\
    count_actions is_value_write (performed w w') = 0 /\
    count_actions is_event (performed w w') = 0.
Proof.
  split; [apply getValue_run|]. split; [apply getFormattedColor_reads|].
  split.
  { intros k. split; [apply onchange_with_run | apply onkeyup_with_run]. }
  split; [intros a; repeat split|].
  split; [apply onchange_run|]. split; [apply onkeyup_run|].
  intros a w'. subst w'.
  assert (P : performed w (delegated a ev (differs_from_model rc w) w) =
              if differs_from_model rc w then [WidgetSetValue (field_text w)]
              else []).
  { apply performed_app. unfold delegated.
    destruct (differs_from_model rc w); cbn; [reflexivity|].
    now rewrite app_nil_r. }
  rewrite P. unfold delegated, differs_from_model.
  rewrite <- strict_neq_spec, <- strict_eq_spec.
  destruct (strict_eq (field_text w)
              (VStr (formatted rc VNull (colorpicker w))));
    cbn; repeat split; congruence.
Qed.

(** An entry point that looks at the Last Interaction Record finds the
    handler's alias there already. *)
Example entry_point_sees_the_record :
  exists w',
    onchange_with resolve_plain alias_probe (VObject 1)
      (world_of (Some (field_with "#00ff00")) (colorpicker fieldless_world))
    = Ok (tt, w') /\
    trace w' = [WidgetSetValue (VStr "input.change")].
Proof. eexists. split; [vm_compute; reflexivity | reflexivity]. Qed.

(** The field shows ["#00ff00"] while the formatted colour is
    ["#0000ff"]: a change hands ["#00ff00"] to the widget, once. *)
Example change_triggers_delegation :
  exists w',
    onchange resolve_plain (VObject 1)
      (world_of (Some (field_with "#00ff00")) (colorpicker fieldless_world))
    = Ok (tt, w') /\
    trace w' = [WidgetSetValue (VStr "#00ff00")] /\
    input w' = Some (field_with "#00ff00").
Proof. eexists. split; [vm_compute; reflexivity|]. split; reflexivity. Qed.

(** ** Construction *)

Lemma _initValue_run rc ct (w : World) (jq : JQuery) :
  input w = Some jq ->
  _initValue rc ct w =
  Ok (tt, emit (PropSet "value" (seed rc ct jq (colorpicker w)))
            (set_input
               (Some (set_prop_value (seed rc ct jq (colorpicker w)) jq)) w)).
Proof.
  intros H. unfold _initValue, input_val, input_data_color,
    input_attr_data_color, input_prop_set.
  unfold mbind at 1. unfold hasInput, gets at 1. rewrite H. cbn [negb].
  unfold mbind at 1 2 3, input_get. repeat (rewrite H; cbn beta iota).
  rewrite pick_candidate_first. unfold seed.
  destruct (find truthy [jq_val jq; data_color jq; attr_data_color jq])
    as [v|].
  - destruct v; unfold mbind, ret, gets, modify, input_upd; cbn [is_string negb];
      rewrite ?getFormattedColor_reads, ?H; reflexivity.
  - unfold mbind, ret, modify, input_upd. cbn [is_string negb].
    rewrite H. reflexivity.
Qed.

Lemma seed_is_string rc ct (jq : JQuery) (cp : Colorpicker) :
  is_string (seed rc ct jq cp) = true.
Proof.
  unfold seed.
  destruct (find truthy [jq_val jq; data_color jq; attr_data_color jq])
    as [v|]; [|reflexivity].
  destruct v; reflexivity.
Qed.

(** C6.  Constructed on a resolvable field, the handler writes into it the
    first non-empty candidate among the field's value, its [color] data
    and its [data-color] attribute: a colour instance rendered in the
    widget's format and passed through [getFormattedColor], a string as it
    is, any other value (or no candidate) as the empty string.  What is
    written is a string, and the write is all that happens. *)
Theorem constructor_seeds_field rc ct (cp : Colorpicker) (jq : JQuery)
    (H : resolve_input cp = Some jq) :
  constructor rc ct cp =
    Ok (tt, {| input := Some (set_prop_value (seed rc ct jq cp) jq);
               colorpicker := cp;
               trace := [PropSet "value" (seed rc ct jq cp)] |}) /\
  is_string (seed rc ct jq cp) = true /\
  (forall ref,
     find truthy [jq_val jq; data_color jq; attr_data_color jq] =
       Some (VColor ref) ->
     getFormattedColor rc (VStr (ct ref (format cp))) (world_of (Some jq) cp) =
       Ok (formatted rc (VStr (ct ref (format cp))) cp,
           world_of (Some jq) cp) /\
     seed rc ct jq cp = VStr (formatted rc (VStr (ct ref (format cp))) cp)).
Proof.
  split; [|split].
  - unfold constructor. rewrite (_initValue_run rc ct _ jq) by exact H.
    rewrite H. reflexivity.
  - apply seed_is_string.
  - intros ref F. split; [apply getFormattedColor_reads|].
    unfold seed. now rewrite F.
Qed.

Lemma constructor_seeds_field_witness :
  constructor resolve_plain (render_fixed "#abcdef")
    (widget_with (input_element attribute_only_field) default_options
       "#0000ff" no_interaction) =
    Ok (tt, {| input := Some (set_prop_value (VStr "#123456")
                                attribute_only_field);
               colorpicker := widget_with (input_element attribute_only_field)
                                default_options "#0000ff" no_interaction;
               trace := [PropSet "value" (VStr "#123456")] |}) /\
  constructor resolve_plain (render_fixed "#abcdef")
    (widget_with (input_element color_data_field) without_hash_prefix
       "#0000ff" no_interaction) =
    Ok (tt, {| input := Some (set_prop_value (VStr "abcdef")
                                color_data_field);
               colorpicker := widget_with (input_element color_data_field)
                                without_hash_prefix "#0000ff" no_interaction;
               trace := [PropSet "value" (VStr "abcdef")] |}).
Proof.
  split.
  - apply (proj1 (constructor_seeds_field resolve_plain
             (render_fixed "#abcdef")
             (widget_with (input_element attribute_only_field)
                default_options "#0000ff" no_interaction)
             attribute_only_field eq_refl)).
  - apply (proj1 (constructor_seeds_field resolve_plain
             (render_fixed "#abcdef")
             (widget_with (input_element color_data_field)
                without_hash_prefix "#0000ff" no_interaction)
             color_data_field eq_refl)).
Defined.

(** ** Resolving the field *)

(** C9.  When the configured selector finds nothing, the field resolves
    to what it would be without any selector; on a widget whose element
    is not itself an input that is no field at all, and [hasInput()] is
    false on the constructed handler. *)
Theorem empty_selection_is_no_field (cp : Colorpicker)
    (Hsel : truthy (opt_input (options cp)) = true)
    (Hempty : jq_length (el_find (element cp) (opt_input (options cp))) = 0) :
  (forall none, truthy none = false ->
     resolve_input cp = resolve_input (with_selector none cp)) /\
  (el_is_input (element cp) = false ->
   resolve_input cp = None /\
   forall rc ct,
     constructor rc ct cp = Ok (tt, world_of None cp) /\
     hasInput (world_of None cp) = Ok (false, world_of None cp)).
Proof.
  assert (R : el_is_input (element cp) = false -> resolve_input cp = None).
  { intros C. unfold resolve_input. now rewrite C, Hsel, Hempty. }
  split.
  - intros none F. unfold resolve_input. cbn [with_selector element options
      opt_input]. rewrite Hsel, F.
    destruct (el_is_input (element cp)); [reflexivity|].
    cbn zeta iota. now rewrite Hempty.
  - intros C. split; [now apply R|]. intros rc ct.
    split; [|reflexivity]. apply constructor_without_field. now apply R.
Qed.

Lemma empty_selection_is_no_field_witness :
  resolve_input (colorpicker fieldless_world) = None /\
  constructor resolve_plain (render_fixed "#abcdef")
    (colorpicker fieldless_world) = Ok (tt, fieldless_world).
Proof.
  pose proof (empty_selection_is_no_field (colorpicker fieldless_world)
                eq_refl eq_refl) as [_ P].
  destruct (P eq_refl) as [P1 P2]. split; [exact P1|].
  apply (proj1 (P2 resolve_plain (render_fixed "#abcdef"))).
Defined.


(** ** Any run of calls *)

Lemma bind_run (w : World) :
  bind w =
  Ok (tt, match input w with
          | Some jq =>
              set_input
                (Some (jq_on "change" "colorpicker" Honchange
                         (jq_on "keyup" "colorpicker" Honkeyup jq))) w
          | None => w
          end).
Proof.
  unfold bind, input_on. run_guarded (@eq_refl _ w).
  destruct (input w) eqn:E; cbn [negb]; rewrite ?E; reflexivity.
Qed.

Lemma unbind_run (w : World) :
  unbind w =
  Ok (tt, match input w with
          | Some jq => set_input (Some (jq_off "colorpicker" jq)) w
          | None => w
          end).
Proof.
  unfold unbind, input_off. run_guarded (@eq_refl _ w).
  destruct (input w) eqn:E; cbn [negb]; rewrite ?E; reflexivity.
Qed.

Lemma _initValue_total rc ct (w : World) :
  _initValue rc ct w =
  Ok (tt, match input w with
          | Some jq =>
              emit (PropSet "value" (seed rc ct jq (colorpicker w)))
                (set_input
                   (Some (set_prop_value (seed rc ct jq (colorpicker w)) jq))
                   w)
          | None => w
          end).
Proof.
  destruct (input w) as [jq|] eqn:E.
  - now apply _initValue_run.
  - unfold _initValue. run_guarded E. reflexivity.
Qed.

Lemma update_total rc (w : World) :
  update rc w =
  match input w with
  | Some _ =>
      if preventsUpdate (colorpicker w) then Ok (tt, w)
      else setValue (VStr (formatted rc VNull (colorpicker w))) w
  | None => Ok (tt, w)
  end.
Proof.
  destruct (input w) as [jq|] eqn:E.
  - now apply (update_run rc w jq).
  - unfold update. run_guarded E. reflexivity.
Qed.

Lemma events_follow_writes_app (l1 l2 : list Action) :
  events_follow_writes l1 = true -> events_follow_writes l2 = true ->
  events_follow_writes (l1 ++ l2) = true.
Proof.
  intros H1 H2. revert H1.
  enough (P : (events_follow_writes l1 = true ->
               events_follow_writes (l1 ++ l2) = true) /\
              forall a, events_follow_writes (a :: l1) = true ->
                        events_follow_writes ((a :: l1) ++ l2) = true)
    by apply P.
  induction l1 as [|b l1 [IH1 IH2]].
  - split; [intros _; exact H2|]. intros a Ha. destruct a; cbn in *.
    + destruct l2 as [|[] l2]; cbn in *; congruence.
    + discriminate.
    + exact H2.
  - split; [apply IH2|]. intros a Ha. destruct a.
    + destruct b as [name0 v0|ev0|v0].
      * exact (IH2 (PropSet name0 v0) Ha).
      * cbn in *. apply andb_true_iff in Ha as [Ha1 Ha2].
        rewrite Ha1. now apply IH1.
      * exact (IH2 (WidgetSetValue v0) Ha).
    + discriminate.
    + exact (IH2 b Ha).
Qed.

Lemma orderly_refl (w : World) : orderly w w.
Proof.
  unfold orderly, same_field_identity, same_widget_but_lastEvent.
  split; [destruct (input w); auto|]. split; [intuition|].
  exists []. now rewrite app_nil_r.
Qed.

Lemma orderly_trans (w1 w2 w3 : World) :
  orderly w1 w2 -> orderly w2 w3 -> orderly w1 w3.
Proof.
  intros (F1 & W1 & l1 & T1 & E1) (F2 & W2 & l2 & T2 & E2).
  split; [|split].
  - unfold same_field_identity in *.
    destruct (input w1), (input w2), (input w3); try tauto.
    destruct F1 as (? & ? & ?), F2 as (? & ? & ?). repeat split; congruence.
  - unfold same_widget_but_lastEvent in *.
    destruct W1 as (? & ? & ? & ? & ? & ? & A1).
    destruct W2 as (? & ? & ? & ? & ? & ? & A2).
    repeat split; try congruence.
    destruct A2 as [A2|A2]; [|now right]. rewrite A2. exact A1.
  - exists (l1 ++ l2). split.
    + now rewrite T2, T1, app_assoc.
    + now apply events_follow_writes_app.
Qed.

Ltac widget_kept :=
  unfold same_widget_but_lastEvent; cbn;
  repeat split;
  first [left; reflexivity | right; left; reflexivity
        | right; right; reflexivity].

Ltac field_kept E :=
  unfold same_field_identity; cbn; rewrite ?E; cbn; auto.

Ltac trace_grew l :=
  exists l; split;
  [cbn; rewrite <- ?app_assoc, ?app_nil_r; reflexivity
  | cbn; rewrite ?strict_eq_refl; reflexivity].

Lemma call_orderly rc ct (c : Call) (w : World) :
  exists w', call rc ct c w = Ok (tt, w') /\ orderly w w'.
Proof.
  destruct c; cbn [call]; unfold discard, mbind, ret.
  - rewrite bind_run. eexists. split; [reflexivity|].
    destruct (input w) as [jq|] eqn:E; [|apply orderly_refl].
    split; [field_kept E|]. split; [widget_kept | trace_grew (@nil Action)].
  - rewrite unbind_run. eexists. split; [reflexivity|].
    destruct (input w) as [jq|] eqn:E; [|apply orderly_refl].
    split; [field_kept E|]. split; [widget_kept | trace_grew (@nil Action)].
  - rewrite _initValue_total. eexists. split; [reflexivity|].
    destruct (input w) as [jq|] eqn:E; [|apply orderly_refl].
    split; [field_kept E|]. split; [widget_kept|].
    trace_grew [PropSet "value" (seed rc ct jq (colorpicker w))].
  - rewrite getValue_run. eexists. split; [reflexivity | apply orderly_refl].
  - rewrite setValue_run. eexists. split; [reflexivity|].
    destruct (input w) as [jq|] eqn:E; [|apply orderly_refl].
    destruct (strict_eq (or_empty val) (or_empty (prop_value jq)));
      [apply orderly_refl|].
    split; [field_kept E|]. split; [widget_kept|].
    trace_grew [PropSet "value" (or_empty val);
                Trigger (change_event w (or_empty val))].
  - rewrite getFormattedColor_reads. eexists.
    split; [reflexivity | apply orderly_refl].
  - unfold hasInput, gets. eexists.
    split; [reflexivity | apply orderly_refl].
  - rewrite isDisabled_run. eexists.
    split; [reflexivity | apply orderly_refl].
  - unfold disable. rewrite set_disabled_run. eexists.
    split; [reflexivity|].
    destruct (input w) as [jq|] eqn:E; [|apply orderly_refl].
    split; [field_kept E|]. split; [widget_kept|].
    trace_grew [PropSet "disabled" (VBool true)].
  - unfold enable. rewrite set_disabled_run. eexists.
    split; [reflexivity|].
    destruct (input w) as [jq|] eqn:E; [|apply orderly_refl].
    split; [field_kept E|]. split; [widget_kept|].
    trace_grew [PropSet "disabled" (VBool false)].
  - rewrite update_total.
    destruct (input w) as [jq|] eqn:E;
      [|eexists; split; [reflexivity | apply orderly_refl]].
    destruct (preventsUpdate (colorpicker w));
      [eexists; split; [reflexivity | apply orderly_refl]|].
    rewrite setValue_run, E. eexists. split; [reflexivity|].
    set (v := or_empty (VStr (formatted rc VNull (colorpicker w)))).
    destruct (strict_eq v (or_empty (prop_value jq)));
      [apply orderly_refl|].
    split; [field_kept E|]. split; [widget_kept|].
    trace_grew [PropSet "value" v; Trigger (change_event w v)].
  - rewrite onchange_run. eexists. split; [reflexivity|].
    unfold delegated. destruct (differs_from_model rc w).
    + split; [unfold same_field_identity; cbn; destruct (input w); auto|].
      split; [widget_kept | trace_grew [WidgetSetValue (field_text w)]].
    + split; [unfold same_field_identity; cbn; destruct (input w); auto|].
      split; [widget_kept | trace_grew (@nil Action)].
  - rewrite onkeyup_run. eexists. split; [reflexivity|].
    unfold delegated. destruct (differs_from_model rc w).
    + split; [unfold same_field_identity; cbn; destruct (input w); auto|].
      split; [widget_kept | trace_grew [WidgetSetValue (field_text w)]].
    + split; [unfold same_field_identity; cbn; destruct (input w); auto|].
      split; [widget_kept | trace_grew (@nil Action)].
Qed.

Lemma calls_orderly rc ct (cs : list Call) (w : World) :
  exists w', calls rc ct cs w = Ok (tt, w') /\ orderly w w'.
Proof.
  revert w. induction cs as [|c cs IH]; intros w.
  - exists w. split; [reflexivity | apply orderly_refl].
  - destruct (call_orderly rc ct c w) as (w1 & C1 & O1).
    destruct (IH w1) as (w2 & C2 & O2).
    exists w2. split; [|now apply (orderly_trans w w1 w2)].
    cbn [calls]. unfold mbind. now rewrite C1.
Qed.

(** X1.  No run of method calls raises, on a handler with a field or
    without: every method tests [hasInput()] before it calls a method of
    [this.input]. *)
Theorem calls_never_throw rc ct (cs : list Call) (w : World) :
  exists w', calls rc ct cs w = Ok (tt, w').
Proof.
  destruct (calls_orderly rc ct cs w) as (w' & C & _). now exists w'.
Qed.

(** X2.  Whether there is a field is settled once: after any run of calls
    a handler without a field is still without one, and a handler with a
    field still has one, of the same length, [color] data and
    [data-color] attribute. *)
Theorem calls_keep_field rc ct (cs : list Call) (w : World) :
  exists w',
    calls rc ct cs w = Ok (tt, w') /\
    same_field_identity w w' /\
    (input w' = None <-> input w = None).
Proof.
  destruct (calls_orderly rc ct cs w) as (w' & C & F & _).
  exists w'. split; [exact C|]. split; [exact F|].
  unfold same_field_identity in F.
  destruct (input w), (input w'); try tauto; split; congruence.
Qed.

(** X4.  In what a run of calls adds to the trace, a change event never
    comes on its own: each one directly follows the write, into the
    field's value, of the value it carries. *)
Theorem calls_events_follow_writes rc ct (cs : list Call) (w : World) :
  exists w',
    calls rc ct cs w = Ok (tt, w') /\
    events_follow_writes (performed w w') = true /\
    count_actions is_event (performed w w') <=
      count_actions is_value_write (performed w w').
Proof.
  destruct (calls_orderly rc ct cs w) as (w' & C & _ & _ & l & T & E).
  exists w'. split; [exact C|]. rewrite (performed_app w w' l T).
  split; [exact E|]. clear T C w w'.
  enough (P : (events_follow_writes l = true ->
               count_actions is_event l <= count_actions is_value_write l) /\
              forall a, events_follow_writes (a :: l) = true ->
                count_actions is_event (a :: l) <=
                count_actions is_value_write (a :: l)) by now apply P.
  clear E. unfold count_actions.
  induction l as [|b l [IH1 IH2]].
  - split; [intros _; apply Nat.le_refl|].
    intros a Ha. destruct a; cbn in *; try discriminate.
    + destruct (name =? "value"); cbn; auto.
    + auto.
  - split; [apply IH2|]. intros a Ha. destruct a as [name v|ev|v].
    + destruct b as [name0 v0|ev0|v0].
      * specialize (IH2 (PropSet name0 v0) Ha). cbn in *.
        destruct (name =? "value"); cbn; auto.
      * cbn in Ha. apply andb_true_iff in Ha as [Ha1 Ha2].
        apply andb_true_iff in Ha1 as [Ha1 _].
        specialize (IH1 Ha2). cbn. rewrite Ha1. cbn.
        now apply le_n_S.
      * specialize (IH2 (WidgetSetValue v0) Ha). cbn in *.
        destruct (name =? "value"); cbn; auto.
    + discriminate.
    + exact (IH2 b Ha).
Qed.

(** ** Subscribing and unsubscribing *)

Lemma filter_keeps_all {A} (f : A -> bool) (l : list A) :
  Forall (fun x => f x = true) l -> filter f l = l.
Proof.
  induction 1 as [|x l Hx _ IH]; cbn; [reflexivity|]. now rewrite Hx, IH.
Qed.

Lemma set_subscriptions_same (jq : JQuery) :
  set_subscriptions (subscriptions jq) jq = jq.
Proof. now destruct jq. Qed.

Lemma set_input_same (w : World) (jq : JQuery) :
  input w = Some jq -> set_input (Some jq) w = w.
Proof. destruct w; cbn; now intros ->. Qed.

Lemma jq_off_unused (ns : string) (jq : JQuery) :
  namespace_unused ns jq -> jq_off ns jq = jq.
Proof.
  intros U. unfold jq_off. rewrite filter_keeps_all.
  - apply set_subscriptions_same.
  - eapply Forall_impl; [|exact U]. cbn. intros s N. now rewrite N.
Qed.

Lemma jq_off_after_bind (jq : JQuery) :
  jq_off "colorpicker"
    (jq_on "change" "colorpicker" Honchange
       (jq_on "keyup" "colorpicker" Honkeyup jq)) =
  jq_off "colorpicker" jq.
Proof.
  unfold jq_off, jq_on. cbn [subscriptions set_subscriptions].
  rewrite !filter_app. cbn. now rewrite !app_nil_r.
Qed.

(** X5.  [unbind] undoes [bind]: unbinding right after binding leaves what
    unbinding alone would have left, and on a field none of whose
    subscriptions carries the [colorpicker] namespace, alone or among
    others, it gives back the world [bind] started from. *)
Theorem bind_then_unbind (w : World) :
  exists w1,
    bind w = Ok (tt, w1) /\
    unbind w1 = unbind w /\
    (forall jq, input w = Some jq -> namespace_unused "colorpicker" jq ->
                unbind w1 = Ok (tt, w)).
Proof.
  rewrite bind_run. eexists. split; [reflexivity|].
  rewrite !unbind_run.
  destruct (input w) as [jq|] eqn:E; cbn [input set_input].
  - rewrite jq_off_after_bind. split; [reflexivity|].
    intros jq' [= <-] U. rewrite (jq_off_unused _ _ U).
    f_equal. f_equal. destruct w as [i cp tr]. cbn in E |- *.
    now rewrite E.
  - rewrite E. split; [reflexivity|]. discriminate.
Qed.

Lemma bind_then_unbind_witness :
  exists w1,
    bind (world_of (Some busy_field) (colorpicker fieldless_world)) =
      Ok (tt, w1) /\
    unbind w1 =
      Ok (tt, world_of (Some busy_field) (colorpicker fieldless_world)).
Proof.
  destruct (bind_then_unbind
              (world_of (Some busy_field) (colorpicker fieldless_world)))
    as (w1 & B & _ & U).
  exists w1. split; [exact B|]. apply (U busy_field eq_refl).
  repeat constructor.
Defined.

(** X6.  [unbind] removes the subscriptions that carry the [colorpicker]
    namespace, those of other origins that carry it beside a namespace of
    their own included, and no other: the rest stays, in its order, the
    field's properties stay, and a second [unbind] changes nothing. *)
Theorem unbind_selective (w : World) (jq : JQuery) (H : input w = Some jq) :
  exists w1 jq1,
    unbind w = Ok (tt, w1) /\
    input w1 = Some jq1 /\
    subscriptions jq1 =
      filter (fun s => negb (carries_namespace "colorpicker" s))
        (subscriptions jq) /\
    namespace_unused "colorpicker" jq1 /\
    (forall s, In s (subscriptions jq1) <->
               In s (subscriptions jq) /\
               carries_namespace "colorpicker" s = false) /\
    prop_value jq1 = prop_value jq /\
    prop_disabled jq1 = prop_disabled jq /\
    trace w1 = trace w /\
    unbind w1 = Ok (tt, w1).
Proof.
  assert (U : namespace_unused "colorpicker" (jq_off "colorpicker" jq)).
  { unfold namespace_unused, jq_off. cbn [subscriptions set_subscriptions].
    apply Forall_forall. intros s I. apply filter_In in I as [_ I].
    now apply negb_true_iff in I. }
  rewrite unbind_run, H.
  exists (set_input (Some (jq_off "colorpicker" jq)) w),
    (jq_off "colorpicker" jq).
  split; [reflexivity|]. split; [reflexivity|]. split; [reflexivity|].
  split; [exact U|]. split.
  { intros s. unfold jq_off. cbn [subscriptions set_subscriptions].
    now rewrite filter_In, negb_true_iff. }
  split; [reflexivity|]. split; [reflexivity|]. split; [reflexivity|].
  rewrite unbind_run. cbn [input set_input].
  rewrite (jq_off_unused _ _ U). reflexivity.
Qed.

Lemma unbind_selective_witness :
  exists w1,
    unbind (world_of (Some shared_namespace_field)
              (colorpicker fieldless_world)) = Ok (tt, w1) /\
    input w1 = Some busy_field.
Proof.
  destruct (unbind_selective
              (world_of (Some shared_namespace_field)
                 (colorpicker fieldless_world))
              shared_namespace_field eq_refl)
    as (w1 & jq1 & U & I & S & _ & _ & V & D & _).
  exists w1. split; [exact U|]. rewrite I. f_equal.
  destruct jq1 as [n pv pd dc ad subs]. cbn in S, V, D.
  vm_compute in U. injection U as <-. vm_compute in I.
  injection I as <- <- <- <- <- <-. reflexivity.
Defined.

Lemma subscribed_on (type ns : string) (h : Handler) (type' ns' : string)
    (h' : Handler) (jq : JQuery) :
  subscribed type ns h (jq_on type' ns' h' jq) =
  subscribed type ns h jq +
  (if (type' =? type) && (ns' =? ns) && Handler_eqb h' h then 1 else 0).
Proof.
  unfold subscribed, jq_on. cbn [subscriptions set_subscriptions].
  rewrite filter_app, length_app. cbn.
  destruct ((type' =? type) && (ns' =? ns) && Handler_eqb h' h); reflexivity.
Qed.

(** X7.  [bind] adds to the field exactly one subscription of [onkeyup] to
    [keyup] and one of [onchange] to [change], both in the [colorpicker]
    namespace, whatever is subscribed already: a second [bind] without an
    [unbind] between leaves each handler subscribed twice. *)
Theorem bind_stacks (w : World) (jq : JQuery) (H : input w = Some jq) :
  exists w1 jq1 w2 jq2,
    bind w = Ok (tt, w1) /\ input w1 = Some jq1 /\
    bind w1 = Ok (tt, w2) /\ input w2 = Some jq2 /\
    subscribed "keyup" "colorpicker" Honkeyup jq1 =
      S (subscribed "keyup" "colorpicker" Honkeyup jq) /\
    subscribed "change" "colorpicker" Honchange jq1 =
      S (subscribed "change" "colorpicker" Honchange jq) /\
    subscribed "keyup" "colorpicker" Honkeyup jq2 =
      S (S (subscribed "keyup" "colorpicker" Honkeyup jq)) /\
    subscribed "change" "colorpicker" Honchange jq2 =
      S (S (subscribed "change" "colorpicker" Honchange jq)) /\
    subscribed "change" "colorpicker" Honkeyup jq2 =
      subscribed "change" "colorpicker" Honkeyup jq /\
    subscribed "keyup" "colorpicker" Honchange jq2 =
      subscribed "keyup" "colorpicker" Honchange jq.
Proof.
  rewrite bind_run, H. do 2 eexists.
  rewrite bind_run. cbn [input set_input]. do 2 eexists.
  split; [reflexivity|]. split; [reflexivity|].
  split; [reflexivity|]. split; [reflexivity|].
  rewrite !subscribed_on. cbn. 
  repeat split; rewrite ?Nat.add_0_r, ?Nat.add_1_r; reflexivity.
Qed.

Lemma bind_stacks_witness :
  exists w2 jq2,
    (bind ;; bind) (world_of (Some blank_field) (colorpicker fieldless_world))
      = Ok (tt, w2) /\
    input w2 = Some jq2 /\
    subscribed "change" "colorpicker" Honchange jq2 = 2.
Proof.
  destruct (bind_stacks
              (world_of (Some blank_field) (colorpicker fieldless_world))
              blank_field eq_refl)
    as (w1 & jq1 & w2 & jq2 & B1 & _ & B2 & I2 & _ & _ & _ & K & _).
  exists w2, jq2. split; [|split; [exact I2 | exact K]].
  unfold mbind. rewrite B1. exact B2.
Defined.

(** ** Writing, then reading *)



Lemma or_empty_text (s : string) : or_empty (VStr s) = VStr s.
Proof. unfold or_empty. cbn. now destruct s. Qed.






(** ** Update and the handlers together *)

(** X10.  [update] settles at once: run again on the world it left, it
    writes nothing and dispatches nothing. *)
Theorem update_idempotent rc (w : World) :
  exists w1, update rc w = Ok (tt, w1) /\ update rc w1 = Ok (tt, w1).
Proof.
  rewrite update_total.
  destruct (input w) as [jq|] eqn:E.
  2:{ exists w. split; [reflexivity|]. now rewrite update_total, E. }
  destruct (preventsUpdate (colorpicker w)) eqn:P.
  { exists w. split; [reflexivity|]. now rewrite update_total, E, P. }
  rewrite setValue_run, E.
  set (fc := formatted rc VNull (colorpicker w)).
  destruct (strict_eq (or_empty (VStr fc)) (or_empty (prop_value jq))) eqn:S.
  - exists w. split; [reflexivity|].
    rewrite update_total, E, P, setValue_run, E. fold fc. now rewrite S.
  - exists (written (or_empty (VStr fc)) jq w). split; [reflexivity|].
    rewrite update_total. cbn [written emit set_input input colorpicker].
    rewrite P, setValue_run. cbn [input]. fold fc.
    change (input (written (or_empty (VStr fc)) jq w))
      with (Some (set_prop_value (or_empty (VStr fc)) jq)).
    cbn [set_prop_value prop_value].
    now rewrite or_empty_idem, strict_eq_refl.
Qed.

(** X11.  No echo: on a field that holds a text, once an [update] that was
    not suppressed has run, [onchange] and [onkeyup] find the field in
    step with the model and only record their interaction; the widget's
    colour-setting entry point is not called. *)
Theorem update_then_handlers_quiet rc (ev : value) (w : World) (jq : JQuery)
    (s : string)
    (H : input w = Some jq) (T : prop_value jq = VStr s)
    (N : ~ suppressed (colorpicker w)) :
  exists w1,
    update rc w = Ok (tt, w1) /\
    field_text w1 = VStr (formatted rc VNull (colorpicker w1)) /\
    onchange rc ev w1 = Ok (tt, record_interaction "input.change" ev w1) /\
    onkeyup rc ev w1 = Ok (tt, record_interaction "input.keyup" ev w1).
Proof.
  assert (P : preventsUpdate (colorpicker w) = false).
  { destruct (preventsUpdate (colorpicker w)) eqn:P; [|reflexivity].
    apply preventsUpdate_spec in P. contradiction. }
  assert (Q : forall w1, field_text w1 =
                         VStr (formatted rc VNull (colorpicker w1)) ->
              onchange rc ev w1 =
                Ok (tt, record_interaction "input.change" ev w1) /\
              onkeyup rc ev w1 =
                Ok (tt, record_interaction "input.keyup" ev w1)).
  { intros w1 F. rewrite onchange_run, onkeyup_run.
    unfold delegated, differs_from_model. rewrite F, strict_eq_refl.
    split; reflexivity. }
  rewrite update_total, H, P, setValue_run, H.
  set (fc := formatted rc VNull (colorpicker w)).
  rewrite or_empty_text, T, or_empty_text.
  destruct (strict_eq (VStr fc) (VStr s)) eqn:S.
  - apply strict_eq_spec in S. exists w. split; [reflexivity|].
    assert (F : field_text w = VStr (formatted rc VNull (colorpicker w))).
    { unfold field_text, jq_val. rewrite H, T. fold fc. congruence. }
    split; [exact F | now apply Q].
  - exists (written (VStr fc) jq w). split; [reflexivity|].
    assert (F : field_text (written (VStr fc) jq w) =
                VStr (formatted rc VNull
                        (colorpicker (written (VStr fc) jq w)))).
    { reflexivity. }
    split; [exact F | now apply Q].
Qed.

Lemma update_then_handlers_quiet_witness :
  exists w1,
    update resolve_plain idle_world = Ok (tt, w1) /\
    onchange resolve_plain (VObject 1) w1 =
      Ok (tt, record_interaction "input.change" (VObject 1) w1).
Proof.
  destruct (update_then_handlers_quiet resolve_plain (VObject 1) idle_world
              (field_with "#00f") "#00f" eq_refl eq_refl)
    as (w1 & U & _ & C & _).
  - intros [A _]. now apply A.
  - now exists w1.
Defined.

(** X12.  A key release holds the field: when automatic fallback is not
    switched on, then after [onkeyup], and whatever the widget does to its
    colour in answer, [update] writes nothing as long as the Last
    Interaction Record and the options are the ones [onkeyup] left. *)
Theorem keyup_holds_update rc (ev : value) (w w1 w2 : World)
    (K : onkeyup rc ev w = Ok (tt, w1))
    (A : autoInputFallback (options (colorpicker w)) <> VBool true)
    (O : options (colorpicker w2) = options (colorpicker w1))
    (L : lastEvent (colorpicker w2) = lastEvent (colorpicker w1)) :
  lastEvent (colorpicker w1) = {| alias := VStr "input.keyup"; e := ev |} /\
  update rc w2 = Ok (tt, w2).
Proof.
  rewrite onkeyup_run in K. injection K as <-.
  assert (L1 : lastEvent
                 (colorpicker
                    (delegated "input.keyup" ev (differs_from_model rc w) w))
               = {| alias := VStr "input.keyup"; e := ev |}).
  { unfold delegated. destruct (differs_from_model rc w); reflexivity. }
  assert (O1 : options
                 (colorpicker
                    (delegated "input.keyup" ev (differs_from_model rc w) w))
               = options (colorpicker w)).
  { unfold delegated. destruct (differs_from_model rc w); reflexivity. }
  split; [exact L1|].
  rewrite update_total. destruct (input w2); [|reflexivity].
  assert (P : preventsUpdate (colorpicker w2) = true).
  { apply preventsUpdate_spec. split.
    - now rewrite O, O1.
    - right. now rewrite L, L1. }
  now rewrite P.
Qed.

Lemma keyup_holds_update_witness :
  exists w1,
    onkeyup resolve_plain (VObject 1) typing_world = Ok (tt, w1) /\
    update resolve_plain w1 = Ok (tt, w1).
Proof.
  eexists. split; [vm_compute; reflexivity|].
  apply (proj2 (keyup_holds_update resolve_plain (VObject 1) typing_world
                  _ _ eq_refl ltac:(discriminate) eq_refl eq_refl)).
Defined.



(** ** Disabling and enabling *)

(** X14.  [isDisabled] answers to the last of [disable] and [enable]: it
    is true after [disable] and false after [enable]; neither changes what
    [getValue] reads, and [enable] after [disable] gives back a field that
    was enabled to begin with. *)
Theorem disable_then_enable (w : World) (jq : JQuery)
    (H : input w = Some jq) :
  exists wd we,
    disable w = Ok (tt, wd) /\ isDisabled wd = Ok (true, wd) /\
    enable wd = Ok (tt, we) /\ isDisabled we = Ok (false, we) /\
    field_text wd = field_text w /\ field_text we = field_text w /\
    (prop_disabled jq = VBool false -> input we = Some jq).
Proof.
  unfold disable, enable. rewrite set_disabled_run, H. eexists.
  rewrite set_disabled_run. cbn [input emit set_input]. eexists.
  split; [reflexivity|]. split; [now rewrite isDisabled_run|].
  split; [reflexivity|]. split; [now rewrite isDisabled_run|].
  unfold field_text. rewrite H. cbn [input emit set_input].
  split; [reflexivity|]. split; [reflexivity|].
  intros D. destruct jq. cbn in D |- *. now rewrite D.
Qed.

Lemma disable_then_enable_witness :
  exists wd we,
    disable (world_of (Some blank_field) (colorpicker fieldless_world)) =
      Ok (tt, wd) /\
    enable wd = Ok (tt, we) /\
    input we = Some blank_field.
Proof.
  destruct (disable_then_enable
              (world_of (Some blank_field) (colorpicker fieldless_world))
              blank_field eq_refl)
    as (wd & we & D & _ & En & _ & _ & _ & R).
  exists wd, we. split; [exact D|]. split; [exact En|]. now apply R.
Defined.

(** X15.  Disabling is no lock: [setValue] writes into a disabled field
    as into an enabled one.  [disable] followed by [setValue(v)] and
    [setValue(v)] followed by [disable] end with the same field and the
    same widget, after the same number of writes and events. *)
Theorem disable_commutes_with_setValue (v : value) (w : World) :
  exists wa wb,
    (disable ;; setValue v) w = Ok (tt, wa) /\
    (setValue v ;; disable) w = Ok (tt, wb) /\
    input wa = input wb /\
    colorpicker wa = colorpicker wb /\
    count_actions is_value_write (performed w wa) =
      count_actions is_value_write (performed w wb) /\
    count_actions is_event (performed w wa) =
      count_actions is_event (performed w wb).
Proof.
  unfold mbind, disable. rewrite set_disabled_run, !setValue_run.
  destruct (input w) as [jq|] eqn:E.
  2:{ rewrite set_disabled_run, E. exists w, w. rewrite E. repeat split. }
  cbn [input emit set_input set_prop_disabled prop_value].
  destruct (strict_eq (or_empty v) (or_empty (prop_value jq))) eqn:S.
  - rewrite set_disabled_run, E. do 2 eexists.
    split; [reflexivity|]. split; [reflexivity|]. repeat split.
  - rewrite set_disabled_run. cbn [written input emit set_input].
    do 2 eexists. split; [reflexivity|]. split; [reflexivity|].
    split; [reflexivity|]. split; [reflexivity|].
    rewrite (performed_app w _
               [PropSet "disabled" (VBool true); PropSet "value" (or_empty v);
                Trigger (change_event w (or_empty v))]),
            (performed_app w _
               [PropSet "value" (or_empty v);
                Trigger (change_event w (or_empty v));
                PropSet "disabled" (VBool true)]).
    + split; reflexivity.
    + cbn. now rewrite <- !app_assoc.
    + cbn. now rewrite <- !app_assoc.
Qed.

(** ** Which field *)

(** X16.  The field the constructor settles on is never an empty jQuery
    object, and it is either the widget's element or what the selector
    found in it. *)
Theorem resolve_input_nonempty (cp : Colorpicker) (jq : JQuery)
    (H : resolve_input cp = Some jq) :
  jq_length jq <> 0 /\
  ((el_is_input (element cp) = true /\ jq = el_jq (element cp)) \/
   (el_is_input (element cp) = false /\
    truthy (opt_input (options cp)) = true /\
    jq = el_find (element cp) (opt_input (options cp)))).
Proof.
  unfold resolve_input in H.
  destruct (el_is_input (element cp)) eqn:I.
  - destruct (jq_length (el_jq (element cp)) =? 0)%nat eqn:L;
      [discriminate|].
    injection H as <-. apply Nat.eqb_neq in L. auto.
  - destruct (truthy (opt_input (options cp))) eqn:T; [|discriminate].
    cbn zeta iota in H.
    destruct (jq_length (el_find (element cp) (opt_input (options cp)))
              =? 0)%nat eqn:L; [discriminate|].
    injection H as <-. apply Nat.eqb_neq in L. auto.
Qed.

Lemma resolve_input_nonempty_witness :
  jq_length attribute_only_field <> 0.
Proof.
  apply (proj1 (resolve_input_nonempty
                  (widget_with (input_element attribute_only_field)
                     default_options "#0000ff" no_interaction)
                  attribute_only_field eq_refl)).
Defined.

(** X17.  An element that is itself an input is the field whatever
    selector is configured; an element that is not, with no selector
    configured, gives no field whatever it contains. *)
Theorem input_element_wins (cp : Colorpicker) :
  (el_is_input (element cp) = true ->
   jq_length (el_jq (element cp)) <> 0 ->
   forall sel, resolve_input (with_selector sel cp) =
               Some (el_jq (element cp))) /\
  (el_is_input (element cp) = false ->
   forall sel, truthy sel = false ->
               resolve_input (with_selector sel cp) = None).
Proof.
  split.
  - intros I L sel. unfold resolve_input. cbn [with_selector element].
    rewrite I. apply Nat.eqb_neq in L. now rewrite L.
  - intros I sel F. unfold resolve_input.
    cbn [with_selector element options opt_input]. now rewrite I, F.
Qed.

Lemma input_element_wins_witness :
  resolve_input
    (with_selector (VStr ".hidden")
       (widget_with (input_element attribute_only_field) default_options
          "#0000ff" no_interaction)) = Some attribute_only_field /\
  resolve_input (with_selector VUndefined (colorpicker fieldless_world)) =
    None.
Proof.
  split.
  - apply (proj1 (input_element_wins
                    (widget_with (input_element attribute_only_field)
                       default_options "#0000ff" no_interaction))
             eq_refl ltac:(discriminate) (VStr ".hidden")).
  - apply (proj2 (input_element_wins (colorpicker fieldless_world))
             eq_refl VUndefined eq_refl).
Defined.

(** ** Seeding, at the edges *)

(** X18.  A field that already shows a text keeps it: constructed on a
    field whose value is a non-empty string, the handler writes that
    string back and ends with the field as it found it, whatever the
    field's [color] data and [data-color] attribute hold. *)
Theorem constructor_keeps_text rc ct (cp : Colorpicker) (jq : JQuery)
    (s : string)
    (H : resolve_input cp = Some jq)
    (T : prop_value jq = VStr s) (N : s <> "") :
  constructor rc ct cp =
    Ok (tt, {| input := Some jq; colorpicker := cp;
               trace := [PropSet "value" (VStr s)] |}).
Proof.
  assert (S : seed rc ct jq cp = VStr s).
  { unfold seed, jq_val. rewrite T. cbn.
    apply String.eqb_neq in N. now rewrite N. }
  unfold constructor. rewrite (_initValue_run rc ct _ jq) by exact H.
  cbn [colorpicker]. rewrite S, H. unfold emit, set_input. cbn.
  destruct jq. cbn in T |- *. now rewrite T.
Qed.

Lemma constructor_keeps_text_witness :
  constructor resolve_plain (render_fixed "#abcdef")
    (widget_with
       (input_element (set_prop_value (VStr "red") color_data_field))
       default_options "#0000ff" no_interaction) =
  Ok (tt, {| input := Some (set_prop_value (VStr "red") color_data_field);
             colorpicker :=
               widget_with
                 (input_element (set_prop_value (VStr "red") color_data_field))
                 default_options "#0000ff" no_interaction;
             trace := [PropSet "value" (VStr "red")] |}).
Proof.
  apply (constructor_keeps_text resolve_plain (render_fixed "#abcdef")
           (widget_with
              (input_element (set_prop_value (VStr "red") color_data_field))
              default_options "#0000ff" no_interaction)
           (set_prop_value (VStr "red") color_data_field) "red"
           eq_refl eq_refl).
  discriminate.
Defined.

(** X19.  The first truthy candidate wins even when it is of no use: on a
    field without a value whose [color] data is truthy but neither a
    string nor a colour instance (a number, say), the constructor writes
    the empty string, and a [data-color] attribute holding a string is
    not looked at. *)
Theorem constructor_data_shadows_attribute rc ct (cp : Colorpicker)
    (jq : JQuery)
    (H : resolve_input cp = Some jq)
    (V : truthy (jq_val jq) = false)
    (D : truthy (data_color jq) = true)
    (S : is_string (data_color jq) = false)
    (C : forall ref, data_color jq <> VColor ref) :
  constructor rc ct cp =
    Ok (tt, {| input := Some (set_prop_value (VStr "") jq);
               colorpicker := cp;
               trace := [PropSet "value" (VStr "")] |}).
Proof.
  assert (E : seed rc ct jq cp = VStr "").
  { unfold seed. cbn [find]. rewrite V, D.
    destruct (data_color jq); try reflexivity; try discriminate.
    now elim (C ref). }
  unfold constructor. rewrite (_initValue_run rc ct _ jq) by exact H.
  cbn [colorpicker]. rewrite E, H. reflexivity.
Qed.

Lemma constructor_data_shadows_attribute_witness :
  constructor resolve_plain (render_fixed "#abcdef")
    (widget_with (input_element numeric_data_field) default_options
       "#0000ff" no_interaction) =
  Ok (tt, {| input := Some (set_prop_value (VStr "") numeric_data_field);
             colorpicker := widget_with (input_element numeric_data_field)
                              default_options "#0000ff" no_interaction;
             trace := [PropSet "value" (VStr "")] |}).
Proof.
  apply (constructor_data_shadows_attribute resolve_plain
           (render_fixed "#abcdef")
           (widget_with (input_element numeric_data_field) default_options
              "#0000ff" no_interaction)
           numeric_data_field eq_refl eq_refl eq_refl eq_refl).
  discriminate.
Defined.

(** ** Formatting nothing *)

(** X20.  With a falsy argument and a falsy safe colour string,
    [getFormattedColor] returns the empty string without asking
    [resolveColor]: the result is the same for every resolver and every
    setting of the hash-prefix option, and a handler reading an empty
    field then has nothing to tell the widget. *)
Theorem getFormattedColor_nothing rc (v : value) (w : World)
    (F : truthy (color_source v (colorpicker w)) = false) :
  getFormattedColor rc v w = Ok ("", w) /\
  (truthy v = false -> forall ev jq,
     input w = Some jq -> jq_val jq = VStr "" ->
     onchange rc ev w = Ok (tt, record_interaction "input.change" ev w)).
Proof.
  assert (G : forall u, truthy (color_source u (colorpicker w)) = false ->
                        formatted rc u (colorpicker w) = "").
  { intros u Fu. unfold formatted, getFormattedColor, mbind, gets, ret.
    unfold color_source in Fu. cbn.
    destruct (truthy u) eqn:T; cbn; now rewrite Fu. }
  split.
  - rewrite getFormattedColor_reads. now rewrite (G v F).
  - intros T ev jq I J. rewrite onchange_run.
    unfold delegated, differs_from_model, field_text. rewrite I, J.
    rewrite (G VNull); [reflexivity|].
    unfold color_source in *. rewrite T in F. exact F.
Qed.

Lemma getFormattedColor_nothing_witness :
  getFormattedColor resolve_plain VUndefined
    (world_of (Some blank_field)
       (widget_with bare_container without_hash_prefix "" no_interaction)) =
  Ok ("", world_of (Some blank_field)
            (widget_with bare_container without_hash_prefix ""
               no_interaction)).
Proof.
  apply (proj1 (getFormattedColor_nothing resolve_plain VUndefined
                  (world_of (Some blank_field)
                     (widget_with bare_container without_hash_prefix ""
                        no_interaction))
                  eq_refl)).
Defined.

(** ** Who touches the widget *)






(** A whole session on a field seeded from its [data-color] attribute
    runs through, and leaves the field enabled, unsubscribed and empty. *)
Example session_runs :
  exists w',
    calls resolve_plain (render_fixed "#abcdef") session
      (world_of (Some attribute_only_field)
         (widget_with (input_element attribute_only_field)
            {| opt_input := VUndefined; useHashPrefix := VBool true;
               autoInputFallback := VBool false |}
            "#0000ff" no_interaction)) = Ok (tt, w') /\
    input w' = Some (set_prop_value (VStr "") attribute_only_field) /\
    count_actions is_event (trace w') = 3 /\
    count_actions is_widget_call (trace w') = 2.
Proof. eexists. split; [vm_compute; reflexivity|]. repeat split. Qed.

(** ** Seeding, once more *)

Lemma constructor_run rc ct (cp : Colorpicker) (jq : JQuery) :
  resolve_input cp = Some jq ->
  constructor rc ct cp =
  Ok (tt, {| input := Some (set_prop_value (seed rc ct jq cp) jq);
             colorpicker := cp;
             trace := [PropSet "value" (seed rc ct jq cp)] |}).
Proof.
  intros H. unfold constructor.
  rewrite (_initValue_run rc ct _ jq) by exact H. now rewrite H.
Qed.

(** X22.  A string candidate is taken as it stands: when the first truthy
    candidate is a string, the constructor writes that very string,
    whatever [resolveColor] would make of it and whatever the hash-prefix
    option says; only a colour instance goes through
    [getFormattedColor]. *)
Theorem constructor_strings_unformatted rc ct (cp : Colorpicker)
    (jq : JQuery) (v : value)
    (H : resolve_input cp = Some jq)
    (F : find truthy [jq_val jq; data_color jq; attr_data_color jq] = Some v)
    (S : is_string v = true) :
  constructor rc ct cp =
    Ok (tt, {| input := Some (set_prop_value v jq); colorpicker := cp;
               trace := [PropSet "value" v] |}).
Proof.
  assert (E : seed rc ct jq cp = v).
  { unfold seed. rewrite F. destruct v; try discriminate; reflexivity. }
  rewrite (constructor_run rc ct cp jq H). now rewrite E.
Qed.

Lemma constructor_strings_unformatted_witness :
  constructor resolve_plain (render_fixed "#abcdef")
    (widget_with (input_element attribute_only_field) without_hash_prefix
       "#0000ff" no_interaction) =
  Ok (tt, {| input := Some (set_prop_value (VStr "#123456")
                              attribute_only_field);
             colorpicker := widget_with (input_element attribute_only_field)
                              without_hash_prefix "#0000ff" no_interaction;
             trace := [PropSet "value" (VStr "#123456")] |}).
Proof.
  apply (constructor_strings_unformatted resolve_plain
           (render_fixed "#abcdef")
           (widget_with (input_element attribute_only_field)
              without_hash_prefix "#0000ff" no_interaction)
           attribute_only_field (VStr "#123456") eq_refl eq_refl eq_refl).
Defined.






